(** * Constrained collections: a shallow embedding of [constrained.py]

    The development follows the source file top-down: the Python values and
    class objects the containers hold, the list primitives of the standard
    [UserList], the subclass hook, the mutation guard [_constrain], the
    construction and indexed-assignment guards installed by
    [Constrained.__init_subclass__], and the three demonstration classes
    [Vec], [Array] and [StrArray].

    Modelling conventions.
    - A Python call either returns or raises: [result A].
    - A bound method is a function of the receiver and the tuple of
      positional arguments ([*args]); keyword arguments are not used by any
      call the source or the specification makes and are left out.
    - The argument of a constructor is a [batch]: any value, or a one-shot
      iterator, whose consumption is threaded through the constructor.
    - Index arithmetic is that of a 64-bit build: an index or a repetition
      count is converted to a C [ssize_t].  A failed allocation of a list
      that would fit is not modelled.
    - Keys of an indexed assignment are values; slice objects are not among
      the values.
    - The classes are the source's own, derived directly from [Constrained]
      and [UserList]. *)

From Stdlib Require Import ZArith Lia.
From stdpp Require Import base decidable countable gmap sets list strings.

Local Open Scope string_scope.
Local Open Scope list_scope.
Local Open Scope Z_scope.

(** ** Runtime classes and values *)

(** Class objects that can be the [__class__] of a value.  [TUser n] is
    any other class, known by its [__name__]. *)
Inductive pytype : Type :=
  | TInt | TStr | TFloat | TBool | TNoneType | TList | TTuple
  | TUser (name : string).

(** Values.  A float is the pair mantissa/exponent; only its class matters.
    [VUserList n items] is an instance of a class [n] derived from
    [UserList], whose [data] is [items].  [VObject n iter index] is an
    instance of any other class [n] ([bytes], [dict], [range], an [IntEnum],
    a client's class): [iter] is what iterating it yields, every time, when
    it has [__iter__], and [index] what its [__index__] returns when it has
    one; it has no attribute [data], and no class along the [__mro__] of [n]
    has [__constraints__] in its [__dict__]. *)
#[local] Unset Elimination Schemes.
Inductive pyval : Type :=
  | VInt (z : Z)
  | VStr (s : string)
  | VFloat (m e : Z)
  | VBool (b : bool)
  | VNone
  | VList (items : list pyval)
  | VTuple (items : list pyval)
  | VUserList (cls : string) (items : list pyval)
  | VObject (cls : string) (iter : option (list pyval)) (index : option Z).
#[local] Set Elimination Schemes.

(** [a.__class__] *)
Definition class_of (v : pyval) : pytype :=
  match v with
  | VInt _ => TInt
  | VStr _ => TStr
  | VFloat _ _ => TFloat
  | VBool _ => TBool
  | VNone => TNoneType
  | VList _ => TList
  | VTuple _ => TTuple
  | VUserList n _ => TUser n
  | VObject n _ _ => TUser n
  end.

(** [t.__name__] *)
Definition type_name (t : pytype) : string :=
  match t with
  | TInt => "int"
  | TStr => "str"
  | TFloat => "float"
  | TBool => "bool"
  | TNoneType => "NoneType"
  | TList => "list"
  | TTuple => "tuple"
  | TUser n => n
  end.

#[global] Instance pytype_eq_dec : EqDecision pytype.
Proof. solve_decision. Defined.

Definition pytype_encode (t : pytype) : nat + string :=
  match t with
  | TInt => inl 0%nat | TStr => inl 1%nat | TFloat => inl 2%nat
  | TBool => inl 3%nat | TNoneType => inl 4%nat | TList => inl 5%nat
  | TTuple => inl 6%nat
  | TUser n => inr n
  end.

Definition pytype_decode (x : nat + string) : pytype :=
  match x with
  | inl 0%nat => TInt | inl 1%nat => TStr | inl 2%nat => TFloat
  | inl 3%nat => TBool | inl 4%nat => TNoneType | inl 5%nat => TList
  | inl _ => TTuple
  | inr n => TUser n
  end.

Definition pytype_decode_encode (t : pytype)
  : pytype_decode (pytype_encode t) = t :=
  match t with
  | TInt | TStr | TFloat | TBool | TNoneType | TList | TTuple | TUser _ =>
      eq_refl
  end.

#[global] Instance pytype_countable : Countable pytype :=
  inj_countable' pytype_encode pytype_decode pytype_decode_encode.

(** An entry of a [__constraints__] tuple: a class object, or the type
    variable left there by [get_args] on an unparameterised generic base. *)
Inductive centry : Type :=
  | CClass (t : pytype)
  | CTypeVar (name : string).

#[global] Instance centry_eq_dec : EqDecision centry.
Proof. solve_decision. Defined.

(** [isinstance(c, TypeVar)] *)
Definition is_typevar (c : centry) : bool :=
  match c with CTypeVar _ => true | CClass _ => false end.

(** [t in cs] for a class object [t] and a tuple [cs]: tuple membership
    compares with [==], and a class object equals only itself. *)
Definition in_constraints (t : pytype) (cs : list centry) : bool :=
  existsb (fun c => match c with
                    | CClass t' => bool_decide (t = t')
                    | CTypeVar _ => false
                    end) cs.

(** ** Results of calls *)

Inductive exn : Type :=
  | TypeError (msg : string)
  | IndexError (msg : string)
  | AttributeError (msg : string)
  | OverflowError (msg : string)
  | MemoryError.

Inductive result (A : Type) : Type :=
  | Ok (a : A)
  | Raise (e : exn).
Arguments Ok {A} a.
Arguments Raise {A} e.

Definition bind {A B : Type} (r : result A) (k : A -> result B) : result B :=
  match r with
  | Ok a => k a
  | Raise e => Raise e
  end.

Notation "'let*' x ':=' r 'in' k" := (bind r (fun x => k))
  (at level 10, x pattern, r at level 100, k at level 200).

(** ** Iteration protocol and built-in list primitives *)

Fixpoint chars (s : string) : list pyval :=
  match s with
  | EmptyString => []
  | String c rest => VStr (String c EmptyString) :: chars rest
  end.

(** The elements [for e in a] yields, or [None] when [a] has no
    [__iter__]. *)
Definition py_iter (a : pyval) : option (list pyval) :=
  match a with
  | VStr s => Some (chars s)
  | VList l => Some l
  | VTuple l => Some l
  | VUserList _ l => Some l
  | VObject _ it _ => it
  | VInt _ | VFloat _ _ | VBool _ | VNone => None
  end.

(** [isinstance(a, Iterable)] *)
Definition is_iterable (a : pyval) : bool :=
  match py_iter a with Some _ => true | None => false end.

(** Truth value of a class object: [type] defines neither [__bool__] nor
    [__len__], so every class of the model is true. *)
Definition class_truth (t : pytype) : bool := true.

(** [operator.index]: integers, booleans, and objects with [__index__]. *)
Definition as_index (v : pyval) : option Z :=
  match v with
  | VInt z => Some z
  | VBool b => Some (if b then 1 else 0)
  | VObject _ _ ix => ix
  | _ => None
  end.

Definition PY_SSIZE_T_MAX : Z := 9223372036854775807.

(** Whether an integer can be converted to a C [ssize_t]. *)
Definition fits_ssize (k : Z) : bool :=
  (- PY_SSIZE_T_MAX - 1 <=? k) && (k <=? PY_SSIZE_T_MAX).

Definition not_iterable (v : pyval) : exn :=
  TypeError ("'" +:+ type_name (class_of v) +:+ "' object is not iterable").

Definition no_data_attribute (v : pyval) : exn :=
  AttributeError
    ("'" +:+ type_name (class_of v) +:+ "' object has no attribute 'data'").

Definition len (l : list pyval) : Z := Z.of_nat (length l).

(** [list.insert(i, x)] for an index that fits: a negative index counts
    from the end, and the position is clamped to [0 .. len]. *)
Definition py_list_insert (i : Z) (x : pyval) (l : list pyval) : list pyval :=
  let i1 := if i <? 0 then i + len l else i in
  let i2 := if i1 <? 0 then 0 else i1 in
  let i3 := if len l <? i2 then len l else i2 in
  take (Z.to_nat i3) l ++ x :: drop (Z.to_nat i3) l.

(** The list [l * n]. *)
Definition py_list_imul (n : Z) (l : list pyval) : list pyval :=
  if n <=? 0 then [] else concat (replicate (Z.to_nat n) l).

(** [l *= n] for an integer [n]: the count is converted first; an empty
    list or a count of one changes nothing, a count below one clears the
    list, and a result longer than [PY_SSIZE_T_MAX] is refused. *)
Definition py_list_inplace_repeat (n : Z) (l : list pyval)
  : result (list pyval) :=
  if negb (fits_ssize n)
  then Raise (OverflowError "cannot fit 'int' into an index-sized integer")
  else if (len l =? 0) || (n =? 1) then Ok l
  else if n <? 1 then Ok []
  else if PY_SSIZE_T_MAX / n <? len l then Raise MemoryError
  else Ok (py_list_imul n l).

(** [l[i] = x] for an integer key.  The list first converts the key and
    then tests it against its length; on a list (whose length always fits)
    that is the same as testing the bounds first, as is done here. *)
Definition py_list_setitem (i : Z) (x : pyval) (l : list pyval)
  : result (list pyval) :=
  let i1 := if i <? 0 then i + len l else i in
  if (i1 <? 0) || (len l <=? i1)
  then Raise (IndexError
                (if fits_ssize i then "list assignment index out of range"
                 else "cannot fit 'int' into an index-sized integer"))
  else Ok (<[Z.to_nat i1 := x]> l).

(** [l.extend(other)] and [l += other]: both iterate [other]. *)
Definition py_list_extend (other : pyval) (l : list pyval)
  : result (list pyval) :=
  match py_iter other with
  | Some xs => Ok (l ++ xs)
  | None => Raise (not_iterable other)
  end.

(** ** The subclass hook *)

(** A class object as [__subclasshook__] looks at it: its [__name__] and,
    along its [__mro__] (the class itself first), the keys of each
    [__dict__]. *)
Record pyclass : Type := PyClass {
  __name__ : string;
  __mro__ : list (gset string)
}.

(** [True] or [NotImplemented]; the hook has no other [return]. *)
Inductive hook_answer : Type := HTrue | HNotImplemented.

Definition preregistered : list string := ["str"; "array"; "IsConstrained"].

Definition __subclasshook__ (C : pyclass) : hook_answer :=
  if bool_decide (__name__ C ∈ preregistered)
     || existsb (fun B : gset string => bool_decide ("__constraints__" ∈ B))
          (__mro__ C)
  then HTrue
  else HNotImplemented.

(** [isinstance(v, UserList)] once a class of the source exists.  For a
    value that is no [UserList], [ABCMeta] goes on to ask the subclasses of
    [UserList], among them [Vec], whose inherited hook answers for the class
    of the value; the classes of the values other than [VUserList] have no
    [__constraints__] along their [__mro__], so only the name counts. *)
Definition isinstance_UserList (v : pyval) : bool :=
  match v with
  | VUserList _ _ => true
  | _ =>
      match __subclasshook__ (PyClass (type_name (class_of v)) []) with
      | HTrue => true
      | HNotImplemented => false
      end
  end.

(** [v.data] *)
Definition data_attribute (v : pyval) : result (list pyval) :=
  match v with
  | VUserList _ items => Ok items
  | _ => Raise (no_data_attribute v)
  end.

(** ** Batches *)

(** What a constructor is given. *)
Inductive batch : Type :=
  | BVal (v : pyval)
  | BIter (items : list pyval).

(** One [for] loop over the batch: what it yields, and the batch as the
    loop leaves it (a one-shot iterator is exhausted). *)
Definition iterate (b : batch) : result (list pyval * batch) :=
  match b with
  | BVal v =>
      match py_iter v with
      | Some l => Ok (l, b)
      | None => Raise (not_iterable v)
      end
  | BIter l => Ok (l, BIter [])
  end.

(** The elements of the batch: what its first iteration yields. *)
Definition batch_items (b : batch) : list pyval :=
  match b with
  | BVal v => default [] (py_iter v)
  | BIter l => l
  end.

(** ** Containers and methods *)

(** An instance: the resolved [__constraints__] tuple and the [data] list
    of the underlying [UserList]. *)
Record container : Type := Container {
  __constraints__ : list centry;
  data : list pyval
}.

Definition with_data (self : container) (d : list pyval) : container :=
  {| __constraints__ := __constraints__ self; data := d |}.

(** What a method hands back: [None], or the receiver itself. *)
Inductive retval : Type := RNone | RSelf.

Definition outcome : Type := result (container * retval).

(** A method applied to the receiver and its positional arguments. *)
Definition method : Type := container -> list pyval -> outcome.

Definition arity_error : exn :=
  TypeError "wrong number of positional arguments".

(** [self.data.insert(i, item)] *)
Definition data_insert (self : container) (i item : pyval) : outcome :=
  match as_index i with
  | Some k =>
      if fits_ssize k
      then Ok (with_data self (py_list_insert k item (data self)), RNone)
      else Raise (OverflowError "Python int too large to convert to C ssize_t")
  | None =>
      Raise (TypeError ("'" +:+ type_name (class_of i)
                        +:+ "' object cannot be interpreted as an integer"))
  end.

(** [self.data *= n; return self] *)
Definition data_imul (self : container) (n : pyval) : outcome :=
  match as_index n with
  | Some k =>
      let* d := py_list_inplace_repeat k (data self) in
      Ok (with_data self d, RSelf)
  | None =>
      Raise (TypeError ("can't multiply sequence by non-int of type '"
                        +:+ type_name (class_of n) +:+ "'"))
  end.

(** The methods of [collections.UserList] the source wraps or reaches
    through [super()]. *)
Module UserList.

(** [type(initlist) == type(self.data)], then [isinstance(initlist,
    UserList)], then [list(initlist)]. *)
Definition __init__ (initlist : batch) : result (list pyval) :=
  match initlist with
  | BVal (VList l) => Ok l
  | BVal v =>
      if isinstance_UserList v then data_attribute v
      else match py_iter v with
           | Some l => Ok l
           | None => Raise (not_iterable v)
           end
  | BIter l => Ok l
  end.

Definition append : method := fun self args =>
  match args with
  | [item] => Ok (with_data self (data self ++ [item]), RNone)
  | _ => Raise arity_error
  end.

Definition insert : method := fun self args =>
  match args with
  | [i; item] => data_insert self i item
  | _ => Raise arity_error
  end.

Definition extend : method := fun self args =>
  match args with
  | [other] =>
      if isinstance_UserList other then
        let* items := data_attribute other in
        Ok (with_data self (data self ++ items), RNone)
      else
        let* d := py_list_extend other (data self) in
        Ok (with_data self d, RNone)
  | _ => Raise arity_error
  end.

Definition __imul__ : method := fun self args =>
  match args with
  | [n] => data_imul self n
  | _ => Raise arity_error
  end.

Definition __iadd__ : method := fun self args =>
  match args with
  | [other] =>
      if isinstance_UserList other then
        let* items := data_attribute other in
        Ok (with_data self (data self ++ items), RSelf)
      else
        let* d := py_list_extend other (data self) in
        Ok (with_data self d, RSelf)
  | _ => Raise arity_error
  end.

Definition __setitem__ (self : container) (i item : pyval) : outcome :=
  match as_index i with
  | Some k =>
      let* d := py_list_setitem k item (data self) in
      Ok (with_data self d, RNone)
  | None =>
      Raise (TypeError ("list indices must be integers or slices, not "
                        +:+ type_name (class_of i)))
  end.

End UserList.

(** ** The mutation guard *)

(** The [for a in args] loop of the wrapper: [args] is the whole argument
    tuple (handed on to [m] unchanged), [todo] what the loop has still to
    visit.  Falling off the end of the loop returns [None]. *)
Fixpoint constrain_loop (m : method) (self : container)
    (args todo : list pyval) : outcome :=
  match todo with
  | [] => Ok (self, RNone)
  | a :: todo' =>
      if negb (in_constraints (class_of a) (__constraints__ self)) then
        match py_iter a with
        | Some es =>
            if negb (forallb (fun e => class_truth (class_of e)) es)
            then Raise (TypeError "Invalid element types")
            else constrain_loop m self args todo'
        | None => Raise (TypeError "Invalid type for argument")
        end
      else m self args
  end.

Definition _constrain (m : method) : method :=
  fun self args => constrain_loop m self args args.

(** ** Guards installed by [__init_subclass__] *)

(** The class-level [__constraints__]: the [constraints] keyword of the
    class statement when it is truthy, else [get_args] of the first
    original base. *)
Definition __init_subclass__ (orig_base_args : list centry)
    (constraints : option (list centry)) : list centry :=
  match constraints with
  | None | Some [] => orig_base_args
  | Some cs => cs
  end.

(** [tuple(set([e.__class__ for e in arg]))]: the order in which a set is
    iterated is not fixed by the language; [elements] stands for it. *)
Definition inferred (arg : list pyval) : list centry :=
  CClass <$> elements (list_to_set (class_of <$> arg) : gset pytype).

(** The value of [self.__constraints__] after the [if]/[elif] of the
    construction guard.  [cls] is the attribute found on the class ([None]
    when it holds Python's [None]), [constraints] the keyword argument,
    [arg] what the batch yields. *)
Definition resolved (cls : option (list centry))
    (constraints : option (list centry)) (arg : list pyval) : list centry :=
  match constraints with
  | Some cs => cs
  | None =>
      match cls with
      | None | Some [] => inferred arg
      | Some (c :: cs') => if is_typevar c then inferred arg else c :: cs'
      end
  end.

(** Whether the [elif] branch runs, and with it a first loop over the
    batch. *)
Definition infers (cls : option (list centry))
    (constraints : option (list centry)) : bool :=
  match constraints with
  | Some _ => false
  | None =>
      match cls with
      | None | Some [] => true
      | Some (c :: _) => is_typevar c
      end
  end.

(** The construction guard of a class whose own [__init__] is that of
    [UserList]: resolve the set (looping over the batch when it is
    inferred), loop over the batch to validate it, then hand the batch, as
    the loops have left it, to [UserList.__init__]. *)
Definition __constrained_init__ (cls : option (list centry))
    (arg : batch) (constraints : option (list centry))
  : result container :=
  let* (seen, arg1) :=
    (if infers cls constraints then iterate arg else Ok ([], arg)) in
  let cs := resolved cls constraints seen in
  let* (vs, arg2) := iterate arg1 in
  if negb (forallb (fun v => in_constraints (class_of v) cs) vs)
  then Raise (TypeError "Invalid value type for Constrained class")
  else
    let* d := UserList.__init__ arg2 in
    Ok {| __constraints__ := cs; data := d |}.

Definition __constrained_setitem__ (self : container) (key val : pyval)
  : outcome :=
  if in_constraints (class_of val) (__constraints__ self)
  then UserList.__setitem__ self key val
  else Raise (TypeError "Invalid value type for Constrained class").

(** ** The classes of the source *)

(** [class Vec(Constrained[T], UserList)] *)
Module Vec.
Definition cls_constraints : list centry :=
  __init_subclass__ [CTypeVar "T"] None.
Definition new := __constrained_init__ (Some cls_constraints).
Definition __setitem__ := __constrained_setitem__.
Definition append : method := _constrain UserList.append.
Definition insert : method := _constrain UserList.insert.
(** [self.data.extend(other)] *)
Definition extend_body : method := fun self args =>
  match args with
  | [other] =>
      let* d := py_list_extend other (data self) in
      Ok (with_data self d, RNone)
  | _ => Raise arity_error
  end.
Definition extend : method := _constrain extend_body.
Definition imul_body : method := fun self args =>
  match args with
  | [n] => data_imul self n
  | _ => Raise arity_error
  end.
Definition __imul__ : method := _constrain imul_body.
(** [self.data += other; return self] *)
Definition iadd_body : method := fun self args =>
  match args with
  | [other] =>
      let* d := py_list_extend other (data self) in
      Ok (with_data self d, RSelf)
  | _ => Raise arity_error
  end.
Definition __iadd__ : method := _constrain iadd_body.
End Vec.

(** [class Array(Constrained, UserList, constraints=(int,))] *)
Module Array.
Definition cls_constraints : list centry :=
  __init_subclass__ [] (Some [CClass TInt]).
Definition new := __constrained_init__ (Some cls_constraints).
Definition __setitem__ := __constrained_setitem__.
Definition append : method := _constrain UserList.append.
Definition extend : method := _constrain UserList.extend.
Definition insert : method := _constrain UserList.insert.
Definition __imul__ : method := _constrain UserList.__imul__.
Definition __iadd__ : method := _constrain UserList.__iadd__.
End Array.

(** [class StrArray(Constrained[str], UserList)] *)
Module StrArray.
Definition cls_constraints : list centry :=
  __init_subclass__ [CClass TStr] None.
Definition new := __constrained_init__ (Some cls_constraints).
Definition __setitem__ := __constrained_setitem__.
Definition append : method := _constrain UserList.append.
Definition extend : method := _constrain UserList.extend.
Definition insert : method := _constrain UserList.insert.
Definition __imul__ : method := _constrain UserList.__imul__.
Definition __iadd__ : method := _constrain UserList.__iadd__.
End StrArray.

(** ** The element-type invariant *)

(** Every stored element's class is a member of the instance's
    [__constraints__]. *)
Definition well_typed (c : container) : Prop :=
  Forall (fun v => CClass (class_of v) ∈ __constraints__ c) (data c).

Definition well_typedb (c : container) : bool :=
  forallb (fun v => in_constraints (class_of v) (__constraints__ c)) (data c).

(** The positional arguments on which the guard neither delegates nor
    raises: iterables whose own class is not an allowed one. *)
Definition skipped (self : container) (a : pyval) : Prop :=
  is_iterable a = true
  /\ in_constraints (class_of a) (__constraints__ self) = false.

(** ** Client calls *)

(** One call a client makes on an instance of [Vec]. *)
Inductive call : Type :=
  | Append (x : pyval)
  | Insert (i x : pyval)
  | Extend (other : pyval)
  | IMul (n : pyval)
  | IAdd (other : pyval)
  | SetItem (key val : pyval).

Definition step (self : container) (c : call) : outcome :=
  match c with
  | Append x => Vec.append self [x]
  | Insert i x => Vec.insert self [i; x]
  | Extend other => Vec.extend self [other]
  | IMul n => Vec.__imul__ self [n]
  | IAdd other => Vec.__iadd__ self [other]
  | SetItem key val => Vec.__setitem__ self key val
  end.

(** A client that makes the calls one after the other and carries on after
    an exception; every call of the model that raises does so before it
    touches [data]. *)
Fixpoint run (self : container) (cs : list call) : container :=
  match cs with
  | [] => self
  | c :: cs' =>
      match step self c with
      | Ok (self', _) => run self' cs'
      | Raise _ => run self cs'
      end
  end.

(** The calls that store only what the guard has tested, or nothing new:
    [append], [*=], and the assignment at a key that is not a slice. *)
Definition element_safe (c : call) : bool :=
  match c with
  | Append _ | IMul _ | SetItem _ _ => true
  | Insert _ _ | Extend _ | IAdd _ => false
  end.

(** A method that hands back the receiver with, at most, new [data]. *)
Definition keeps_constraints (m : method) : Prop :=
  forall self args c r,
    m self args = Ok (c, r) -> __constraints__ c = __constraints__ self.

(** * Properties *)

(** The demonstration script of the source, replayed. *)
Example demo_l :
  Vec.new (BVal (VList [VStr "a"; VStr "b"])) (Some [CClass TStr])
  = Ok (Container [CClass TStr] [VStr "a"; VStr "b"]).
Proof. reflexivity. Qed.

Example demo_l_setitem_append :
  (let* (l1, _) := Vec.__setitem__ (Container [CClass TStr] [VStr "a"; VStr "b"])
                                (VInt 1) (VStr "c") in
   Vec.append l1 [VStr "c"])
  = Ok (Container [CClass TStr] [VStr "a"; VStr "c"; VStr "c"], RNone).
Proof. reflexivity. Qed.

Example demo_a :
  (let* a := Array.new (BVal (VList [VInt 1; VInt 2; VInt 3])) None in
   Array.append a [VInt 4])
  = Ok (Container [CClass TInt] [VInt 1; VInt 2; VInt 3; VInt 4], RNone).
Proof. reflexivity. Qed.

Example demo_l2 :
  Vec.new (BVal (VList [VStr "d"; VStr "e"])) None
  = Ok (Container [CClass TStr] [VStr "d"; VStr "e"]).
Proof. vm_compute. reflexivity. Qed.

(** ** Membership in a constraints tuple *)

Lemma in_constraints_spec (t : pytype) (cs : list centry) :
  in_constraints t cs = true <-> CClass t ∈ cs.
Proof.
  unfold in_constraints. induction cs as [|c cs IH]; simpl.
  - split; [discriminate | intros H; inversion H].
  - rewrite orb_true_iff, elem_of_cons, IH.
    destruct c as [t'|n]; simpl.
    + rewrite bool_decide_eq_true. split; intros [H|H]; auto.
      * left. congruence.
      * left. congruence.
    + split; intros [H|H]; auto; discriminate.
Qed.

Lemma in_constraints_false (t : pytype) (cs : list centry) :
  in_constraints t cs = false <-> CClass t ∉ cs.
Proof.
  rewrite <- in_constraints_spec. destruct (in_constraints t cs); naive_solver.
Qed.

Lemma forallb_in_constraints (cs : list centry) (l : list pyval) :
  forallb (fun v => in_constraints (class_of v) cs) l = true
  <-> Forall (fun v => CClass (class_of v) ∈ cs) l.
Proof.
  induction l as [|v l IH]; simpl.
  - split; auto.
  - rewrite andb_true_iff, Forall_cons, IH, in_constraints_spec. tauto.
Qed.

Lemma well_typedb_spec (c : container) : well_typedb c = true <-> well_typed c.
Proof. apply forallb_in_constraints. Qed.

(** ** The inferred tuple *)

Lemma elem_of_inferred (c : centry) (arg : list pyval) :
  c ∈ inferred arg <-> exists v, v ∈ arg /\ c = CClass (class_of v).
Proof.
  unfold inferred. rewrite list_elem_of_fmap. split.
  - intros (t & -> & Ht). apply elem_of_elements, elem_of_list_to_set in Ht.
    apply list_elem_of_fmap in Ht as (v & -> & Hv). eauto.
  - intros (v & Hv & ->). exists (class_of v). split; [done|].
    apply elem_of_elements, elem_of_list_to_set, list_elem_of_fmap. eauto.
Qed.

Lemma NoDup_inferred (arg : list pyval) : NoDup (inferred arg).
Proof.
  unfold inferred. apply NoDup_fmap_2; [|apply NoDup_elements].
  intros t1 t2 H. by inversion H.
Qed.

Lemma inferred_covers (arg : list pyval) :
  Forall (fun v => CClass (class_of v) ∈ inferred arg) arg.
Proof. apply Forall_forall. intros v Hv. apply elem_of_inferred. eauto. Qed.

Lemma inferred_nil_iff (arg : list pyval) : inferred arg = [] <-> arg = [].
Proof.
  split.
  - intros H. destruct arg as [|v arg]; [done|].
    assert (CClass (class_of v) ∈ inferred (v :: arg)) as Hin
      by (apply elem_of_inferred; exists v; split; [left|done]).
    rewrite H in Hin. inversion Hin.
  - intros ->. reflexivity.
Qed.

(** ** Construction *)

Lemma resolved_explicit cls (cs : list centry) (arg : list pyval) :
  resolved cls (Some cs) arg = cs.
Proof. reflexivity. Qed.

Lemma resolved_open cls (arg : list pyval) :
  cls = None \/ cls = Some [] \/ (exists n rest, cls = Some (CTypeVar n :: rest)) ->
  resolved cls None arg = inferred arg.
Proof. intros [-> | [-> | (n & rest & ->)]]; reflexivity. Qed.

Lemma resolved_concrete (t : pytype) (rest : list centry) (arg : list pyval) :
  resolved (Some (CClass t :: rest)) None arg = CClass t :: rest.
Proof. reflexivity. Qed.

Lemma resolved_when_inferring cls constraints (l : list pyval) :
  infers cls constraints = true -> resolved cls constraints l = inferred l.
Proof.
  destruct constraints as [cs|]; [discriminate|].
  destruct cls as [[|c cs']|]; simpl; try reflexivity.
  by intros ->.
Qed.

Lemma resolved_when_not_inferring cls constraints (l l' : list pyval) :
  infers cls constraints = false ->
  resolved cls constraints l = resolved cls constraints l'.
Proof.
  destruct constraints as [cs|]; [reflexivity|].
  destruct cls as [[|c cs']|]; simpl; try discriminate.
  by intros ->.
Qed.

Lemma iterate_items (b : batch) (items : list pyval) (rest : batch) :
  iterate b = Ok (items, rest) -> items = batch_items b.
Proof.
  destruct b as [v|l]; simpl.
  - destruct (py_iter v); [|discriminate]. by intros [= <- <-].
  - by intros [= <- <-].
Qed.

(** The construction guard as one equation: loop over the batch, validate
    what it yields against the resolved set, store what is left of it. *)
Lemma constrained_init_eq cls (arg : batch) constraints :
  __constrained_init__ cls arg constraints
  = match iterate arg with
    | Raise e => Raise e
    | Ok (items, rest) =>
        if forallb (fun v => in_constraints (class_of v)
                               (resolved cls constraints items)) items
        then let* d := UserList.__init__ rest in
             Ok (Container (resolved cls constraints items) d)
        else Raise (TypeError "Invalid value type for Constrained class")
    end.
Proof.
  unfold __constrained_init__.
  generalize UserList.__init__ as store. intros store.
  destruct (infers cls constraints) eqn:Hinf.
  - destruct arg as [v|l]; simpl.
    + destruct (py_iter v) as [items|] eqn:Hv; [|reflexivity]. simpl.
      rewrite Hv. simpl. by destruct (forallb _ items).
    + rewrite (resolved_when_inferring _ _ _ Hinf).
      assert (forallb (fun v => in_constraints (class_of v) (inferred l)) l
              = true) as ->; [|reflexivity].
      apply forallb_in_constraints, inferred_covers.
  - simpl. destruct (iterate arg) as [[items rest]|e]; [|reflexivity]. simpl.
    rewrite (resolved_when_not_inferring cls constraints [] items Hinf).
    by destruct (forallb _ items).
Qed.

(** What [UserList.__init__] stores of a value it accepts: its elements. *)
Lemma userlist_init_value (v : pyval) (d : list pyval) :
  UserList.__init__ (BVal v) = Ok d -> py_iter v = Some d.
Proof.
  intros H. destruct v as [z|s|m e|b| |l|l|n l|n it ix];
    unfold UserList.__init__ in H;
    try (by injection H as <-);
    match type of H with
    | context [if ?b then _ else _] => destruct b
    end; simpl in *; try discriminate H; try (by injection H as <-).
  destruct it; [by injection H as <- | discriminate H].
Qed.

Lemma constrained_init_ok cls (arg : batch) constraints (c : container) :
  __constrained_init__ cls arg constraints = Ok c ->
  __constraints__ c = resolved cls constraints (batch_items arg)
  /\ Forall (fun v => CClass (class_of v) ∈ __constraints__ c) (batch_items arg)
  /\ data c = match arg with BVal _ => batch_items arg | BIter _ => [] end.
Proof.
  rewrite constrained_init_eq.
  destruct (iterate arg) as [[items rest]|e] eqn:Hit; [|discriminate].
  pose proof (iterate_items _ _ _ Hit) as ->.
  destruct (forallb _ (batch_items arg)) eqn:E; [|discriminate].
  destruct (UserList.__init__ rest) as [d|e] eqn:Hd; [|discriminate].
  simpl. intros [= <-]. simpl.
  split; [reflexivity|]. split; [by apply forallb_in_constraints|].
  destruct arg as [v|l]; simpl in *.
  - destruct (py_iter v) as [items|] eqn:Hv; [|discriminate].
    simpl in Hit. inversion Hit; subst rest.
    apply userlist_init_value in Hd.
    rewrite Hv in Hd. by injection Hd as ->.
  - inversion Hit; subst rest. simpl in Hd. by injection Hd as <-.
Qed.

Lemma construction_well_typed cls (arg : batch) constraints c :
  __constrained_init__ cls arg constraints = Ok c -> well_typed c.
Proof.
  intros H. apply constrained_init_ok in H as (_ & Hv & Hd).
  unfold well_typed. rewrite Hd. destruct arg; [exact Hv | constructor].
Qed.

(** A valid list or tuple is always accepted, and stored as it is. *)
Lemma constrained_init_sequence cls (v : pyval) (l : list pyval) constraints :
  v = VList l \/ v = VTuple l ->
  Forall (fun x => CClass (class_of x) ∈ resolved cls constraints l) l ->
  __constrained_init__ cls (BVal v) constraints
  = Ok (Container (resolved cls constraints l) l).
Proof.
  intros Hv Hl. apply forallb_in_constraints in Hl.
  rewrite constrained_init_eq.
  destruct Hv as [-> | ->]; simpl; by rewrite Hl.
Qed.

(** C3: when an explicit tuple is passed as [constraints], the set the
    construction guard resolves is that tuple, whatever the class declares
    and whatever classes occur in the batch, and an instance that is
    constructed carries exactly that tuple. *)
Theorem explicit_constraints_take_precedence
    cls (arg : batch) (cs : list centry) (c : container) :
  __constrained_init__ cls arg (Some cs) = Ok c ->
  __constraints__ c = cs /\ resolved cls (Some cs) (batch_items arg) = cs.
Proof.
  intros H. apply constrained_init_ok in H as (-> & _). by split.
Qed.

(** An [Array] (class-level set [int]) built from strings with the explicit
    tuple [(str,)]. *)
Lemma explicit_constraints_take_precedence_witness :
  __constrained_init__ (Some Array.cls_constraints)
    (BVal (VList [VStr "a"; VStr "b"])) (Some [CClass TStr])
  = Ok (Container [CClass TStr] [VStr "a"; VStr "b"])
  /\ __constraints__ (Container [CClass TStr] [VStr "a"; VStr "b"])
     = [CClass TStr]
  /\ resolved (Some Array.cls_constraints) (Some [CClass TStr])
       (batch_items (BVal (VList [VStr "a"; VStr "b"]))) = [CClass TStr].
Proof.
  split; [reflexivity|].
  apply (explicit_constraints_take_precedence (Some Array.cls_constraints)
           (BVal (VList [VStr "a"; VStr "b"])) [CClass TStr]).
  reflexivity.
Defined.

(** C4: with no [constraints] argument and a class-level attribute that is
    [None], the empty tuple, or a tuple headed by a type variable, the
    instance that a construction returns carries the inferred tuple: it has
    no duplicates and its entries are exactly the classes of the elements of
    the batch. *)
Theorem inferred_constraints_are_batch_types
    cls (arg : batch) (c : container) :
  cls = None \/ cls = Some [] \/ (exists n rest, cls = Some (CTypeVar n :: rest)) ->
  __constrained_init__ cls arg None = Ok c ->
  __constraints__ c = resolved cls None (batch_items arg)
  /\ NoDup (__constraints__ c)
  /\ (forall e, e ∈ __constraints__ c
                <-> exists v, v ∈ batch_items arg /\ e = CClass (class_of v)).
Proof.
  intros Hcls H. apply constrained_init_ok in H as (Hc & _).
  pose proof (resolved_open cls (batch_items arg) Hcls) as E.
  split; [exact Hc|]. rewrite Hc, E. split.
  - apply NoDup_inferred.
  - intros e. apply elem_of_inferred.
Qed.

(** [Vec([1, 'a', 2])] *)
Lemma inferred_constraints_are_batch_types_witness :
  (Some Vec.cls_constraints = None \/ Some Vec.cls_constraints = Some []
   \/ exists n rest, Some Vec.cls_constraints = Some (CTypeVar n :: rest))
  /\ __constrained_init__ (Some Vec.cls_constraints)
       (BVal (VList [VInt 1; VStr "a"; VInt 2])) None
     = Ok (Container (inferred [VInt 1; VStr "a"; VInt 2])
             [VInt 1; VStr "a"; VInt 2])
  /\ __constraints__ (Container (inferred [VInt 1; VStr "a"; VInt 2])
                        [VInt 1; VStr "a"; VInt 2])
     = resolved (Some Vec.cls_constraints) None
         (batch_items (BVal (VList [VInt 1; VStr "a"; VInt 2])))
  /\ NoDup (__constraints__ (Container (inferred [VInt 1; VStr "a"; VInt 2])
                               [VInt 1; VStr "a"; VInt 2]))
  /\ (forall e,
        e ∈ __constraints__ (Container (inferred [VInt 1; VStr "a"; VInt 2])
                               [VInt 1; VStr "a"; VInt 2])
        <-> exists v, v ∈ batch_items (BVal (VList [VInt 1; VStr "a"; VInt 2]))
                      /\ e = CClass (class_of v)).
Proof.
  assert (Some Vec.cls_constraints = None \/ Some Vec.cls_constraints = Some []
          \/ exists n rest, Some Vec.cls_constraints = Some (CTypeVar n :: rest))
    as H1 by (right; right; exists "T", []; reflexivity).
  assert (__constrained_init__ (Some Vec.cls_constraints)
            (BVal (VList [VInt 1; VStr "a"; VInt 2])) None
          = Ok (Container (inferred [VInt 1; VStr "a"; VInt 2])
                  [VInt 1; VStr "a"; VInt 2])) as H2
    by (vm_compute; reflexivity).
  split; [exact H1|]. split; [exact H2|].
  exact (inferred_constraints_are_batch_types (Some Vec.cls_constraints)
           (BVal (VList [VInt 1; VStr "a"; VInt 2])) _ H1 H2).
Defined.

(** A list batch with nothing declared is always accepted. *)
Lemma inferring_construction_accepts_lists cls (l : list pyval) :
  cls = None \/ cls = Some [] \/ (exists n rest, cls = Some (CTypeVar n :: rest)) ->
  __constrained_init__ cls (BVal (VList l)) None
  = Ok (Container (inferred l) l).
Proof.
  intros Hcls. rewrite <- (resolved_open cls l Hcls).
  apply constrained_init_sequence; [by left|].
  rewrite (resolved_open cls l Hcls). apply inferred_covers.
Qed.

(** C5, as stated, fails: a one-shot iterator is exhausted by the loop that
    validates it, and the instance is built with no data. *)
Lemma one_shot_batch_is_not_stored :
  Vec.new (BIter [VInt 1; VStr "a"]) (Some [CClass TStr; CClass TInt])
  = Ok (Container [CClass TStr; CClass TInt] [])
  /\ ~ (forall cls arg constraints c,
          __constrained_init__ cls arg constraints = Ok c ->
          data c = batch_items arg).
Proof.
  split; [reflexivity|].
  intros H.
  specialize (H (Some Vec.cls_constraints) (BIter [VInt 1; VStr "a"])
                (Some [CClass TStr; CClass TInt])
                (Container [CClass TStr; CClass TInt] []) eq_refl).
  discriminate H.
Qed.

(** C5, amended: either every element of the batch has a class of the
    resolved set, or the construction raises the type error and returns no
    instance; an instance that is returned carries the resolved set and,
    when the batch is a value (a list, a tuple, another container: anything
    but a one-shot iterator), holds its elements in their order; a valid
    list or tuple is always accepted. *)
Theorem construction_validates_batch cls (arg : batch) constraints :
  (Forall (fun v => CClass (class_of v)
                      ∈ resolved cls constraints (batch_items arg))
     (batch_items arg)
   \/ __constrained_init__ cls arg constraints
      = Raise (TypeError "Invalid value type for Constrained class"))
  /\ (forall c,
        __constrained_init__ cls arg constraints = Ok c ->
        __constraints__ c = resolved cls constraints (batch_items arg)
        /\ Forall (fun v => CClass (class_of v) ∈ __constraints__ c)
             (batch_items arg)
        /\ forall v, arg = BVal v -> data c = batch_items arg)
  /\ (forall l,
        arg = BVal (VList l) \/ arg = BVal (VTuple l) ->
        Forall (fun v => CClass (class_of v) ∈ resolved cls constraints l) l ->
        __constrained_init__ cls arg constraints
        = Ok (Container (resolved cls constraints l) l)).
Proof.
  split; [|split].
  - rewrite constrained_init_eq.
    destruct (iterate arg) as [[items rest]|e] eqn:Hit.
    + pose proof (iterate_items _ _ _ Hit) as ->.
      destruct (forallb _ (batch_items arg)) eqn:E; [|by right].
      left. by apply forallb_in_constraints.
    + left. destruct arg as [v|l]; [|discriminate]. simpl in *.
      destruct (py_iter v); [discriminate | constructor].
  - intros c H. apply constrained_init_ok in H as (Hc & Hv & Hd).
    split; [exact Hc|]. split; [exact Hv|]. by intros v ->.
  - intros l [-> | ->] Hl; by apply constrained_init_sequence; auto.
Qed.

(** The empty batch: nothing to infer, nothing to validate. *)
Lemma empty_batch_constructs :
  Vec.new (BVal (VList [])) None = Ok (Container [] []).
Proof. reflexivity. Qed.

(** C8, as stated, fails: a [Vec] built from the empty batch with no
    [constraints] argument is constructed with the empty tuple. *)
Lemma empty_set_after_construction :
  Vec.new (BVal (VList [])) None = Ok (Container [] [])
  /\ ~ (forall cls arg constraints c,
          __constrained_init__ cls arg constraints = Ok c ->
          __constraints__ c <> []).
Proof.
  split; [reflexivity|].
  intros H.
  apply (H (Some Vec.cls_constraints) (BVal (VList [])) None (Container [] []));
    reflexivity.
Qed.

(** C8, amended: the set of a constructed instance is empty in one case
    only: the batch is empty and the set is either the explicit empty tuple
    or inferred (no [constraints] argument, and a class-level attribute that
    is [None], the empty tuple, or headed by a type variable).  So an empty
    or unset class-level set is filled in by inference, and left empty
    exactly when the batch is. *)
Theorem nonempty_batch_nonempty_constraints
    cls (arg : batch) constraints (c : container) :
  __constrained_init__ cls arg constraints = Ok c ->
  (__constraints__ c = []
   <-> batch_items arg = []
       /\ (constraints = Some []
           \/ (constraints = None
               /\ (cls = None \/ cls = Some []
                   \/ exists n rest, cls = Some (CTypeVar n :: rest))))).
Proof.
  intros H. apply constrained_init_ok in H as (Hc & Hv & _).
  rewrite Hc in *. clear Hc.
  assert (forall l : list pyval,
             Forall (fun v => CClass (class_of v) ∈ @nil centry) l -> l = [])
    as Hnil.
  { intros [|v l] Hl; [reflexivity|].
    apply Forall_cons in Hl as [Hx _]. inversion Hx. }
  split.
  - intros E. rewrite E in Hv. split; [by apply Hnil|].
    destruct constraints as [cs|]; simpl in E; [left; by subst|].
    right. split; [reflexivity|].
    destruct cls as [[|c0 cs']|]; auto.
    destruct c0 as [t|n]; simpl in E; [discriminate|]. eauto.
  - intros (Hb & [-> | (-> & Hcls)]); [reflexivity|].
    rewrite (resolved_open cls _ Hcls), Hb. reflexivity.
Qed.

(** [Array([])]: an empty batch, and the declared set [(int,)]. *)
Lemma nonempty_batch_nonempty_constraints_witness :
  __constrained_init__ (Some Array.cls_constraints) (BVal (VList [])) None
  = Ok (Container [CClass TInt] [])
  /\ (__constraints__ (Container [CClass TInt] []) = []
      <-> batch_items (BVal (VList [])) = []
          /\ (@None (list centry) = Some []
              \/ (@None (list centry) = None
                  /\ (Some Array.cls_constraints = None
                      \/ Some Array.cls_constraints = Some []
                      \/ exists n rest,
                          Some Array.cls_constraints
                          = Some (CTypeVar n :: rest))))).
Proof.
  split; [reflexivity|].
  apply (nonempty_batch_nonempty_constraints (Some Array.cls_constraints)
           (BVal (VList [])) None).
  reflexivity.
Defined.

(** ** The mutation guard *)

(** The element test of the guard looks at the truth value of each class
    object, never at the constraints, so it cannot fail. *)
Lemma all_classes_true (es : list pyval) :
  forallb (fun e => class_truth (class_of e)) es = true.
Proof. induction es as [|e es IH]; [reflexivity | exact IH]. Qed.

Section Guard.

Variables (m : method) (self : container) (args : list pyval).

Lemma constrain_loop_allowed a todo :
  in_constraints (class_of a) (__constraints__ self) = true ->
  constrain_loop m self args (a :: todo) = m self args.
Proof. intros H. simpl. rewrite H. reflexivity. Qed.

Lemma constrain_loop_skip a todo :
  skipped self a ->
  constrain_loop m self args (a :: todo) = constrain_loop m self args todo.
Proof.
  intros [Hit Hin]. simpl. rewrite Hin. simpl.
  unfold is_iterable in Hit. destruct (py_iter a) as [es|]; [|discriminate].
  rewrite all_classes_true. reflexivity.
Qed.

Lemma constrain_loop_scalar a todo :
  is_iterable a = false ->
  in_constraints (class_of a) (__constraints__ self) = false ->
  constrain_loop m self args (a :: todo)
  = Raise (TypeError "Invalid type for argument").
Proof.
  intros Hit Hin. simpl. rewrite Hin. simpl.
  unfold is_iterable in Hit. destruct (py_iter a); [discriminate | reflexivity].
Qed.

(** The three ways out of the guard: delegate with the whole argument
    tuple, fall off the loop, or reject a non-iterable argument. *)
Lemma constrain_loop_cases todo :
  constrain_loop m self args todo = m self args
  \/ constrain_loop m self args todo = Ok (self, RNone)
  \/ constrain_loop m self args todo
     = Raise (TypeError "Invalid type for argument").
Proof.
  induction todo as [|a todo IH]; [right; left; reflexivity|].
  destruct (in_constraints (class_of a) (__constraints__ self)) eqn:Hin.
  - left. by apply constrain_loop_allowed.
  - destruct (is_iterable a) eqn:Hit.
    + rewrite constrain_loop_skip by done. exact IH.
    + right. right. by apply constrain_loop_scalar.
Qed.

Lemma constrain_loop_all_skipped todo :
  Forall (skipped self) todo ->
  constrain_loop m self args todo = Ok (self, RNone).
Proof.
  induction todo as [|a todo IH]; intros Hall; [reflexivity|].
  apply Forall_cons in Hall as [Ha Htodo].
  rewrite constrain_loop_skip by exact Ha. by apply IH.
Qed.

End Guard.

Lemma constrain_first_allowed (m : method) self a rest :
  CClass (class_of a) ∈ __constraints__ self ->
  _constrain m self (a :: rest) = m self (a :: rest).
Proof.
  intros H. apply constrain_loop_allowed. by apply in_constraints_spec.
Qed.

Lemma py_list_insert_elem (i : Z) (x : pyval) (l : list pyval) :
  x ∈ py_list_insert i x l.
Proof.
  unfold py_list_insert. apply elem_of_app. right. apply elem_of_cons. by left.
Qed.

Lemma py_list_insert_shape (i : Z) (x : pyval) (l : list pyval) :
  exists p, (p <= length l)%nat
            /\ py_list_insert i x l = take p l ++ x :: drop p l.
Proof.
  unfold py_list_insert, len. cbv zeta.
  set (i1 := if i <? 0 then i + Z.of_nat (length l) else i).
  set (i2 := if i1 <? 0 then 0 else i1).
  set (i3 := if Z.of_nat (length l) <? i2 then Z.of_nat (length l) else i2).
  exists (Z.to_nat i3). split; [|reflexivity].
  subst i3. destruct (Z.ltb_spec (Z.of_nat (length l)) i2); lia.
Qed.

Lemma py_list_insert_length (i : Z) (x : pyval) (l : list pyval) :
  length (py_list_insert i x l) = S (length l).
Proof.
  destruct (py_list_insert_shape i x l) as (p & Hp & ->).
  rewrite length_app. simpl. rewrite length_take, length_drop. lia.
Qed.

(** C9, as stated, fails for an integer index that does not fit a C
    [ssize_t]: the guard delegates all the same, but the list raises
    [OverflowError] and stores nothing. *)
Lemma insert_with_huge_index_raises :
  CClass TInt ∈ __constraints__ (Container [CClass TInt] [VInt 1; VInt 2; VInt 3])
  /\ Array.insert (Container [CClass TInt] [VInt 1; VInt 2; VInt 3])
       [VInt (2 ^ 64); VFloat 3 (-1)]
     = Raise (OverflowError "Python int too large to convert to C ssize_t")
  /\ ~ (forall (self : container) (i : Z) (x : pyval),
          CClass TInt ∈ __constraints__ self ->
          exists c r, Array.insert self [VInt i; x] = Ok (c, r) /\ x ∈ data c).
Proof.
  assert (CClass TInt
          ∈ __constraints__ (Container [CClass TInt] [VInt 1; VInt 2; VInt 3]))
    as Hin by (apply in_constraints_spec; reflexivity).
  split; [exact Hin|]. split; [reflexivity|].
  intros H.
  destruct (H (Container [CClass TInt] [VInt 1; VInt 2; VInt 3]) (2 ^ 64)
              (VFloat 3 (-1)) Hin) as (c & r & Hc & _).
  discriminate Hc.
Qed.

(** C9, amended: on a container whose set holds [int], a guarded call whose
    first positional argument is an integer is handed to the wrapped method
    at once, whatever the remaining arguments are; so [insert(i, x)] with an
    index that fits a C [ssize_t] stores [x], with no test of the class of
    [x]: the returned container has the same set, one element more, and [x]
    at some position among the old elements, which keep their order. *)
Theorem insert_checks_only_the_index (self : container) (i : Z) (x : pyval) :
  CClass TInt ∈ __constraints__ self ->
  - PY_SSIZE_T_MAX - 1 <= i <= PY_SSIZE_T_MAX ->
  (forall (m : method) rest,
      _constrain m self (VInt i :: rest) = m self (VInt i :: rest))
  /\ exists c,
       Vec.insert self [VInt i; x] = Ok (c, RNone)
       /\ Array.insert self [VInt i; x] = Ok (c, RNone)
       /\ __constraints__ c = __constraints__ self
       /\ length (data c) = S (length (data self))
       /\ x ∈ data c
       /\ exists p, (p <= length (data self))%nat
                    /\ data c = take p (data self) ++ x :: drop p (data self).
Proof.
  intros H Hi. split; [intros m rest; by apply constrain_first_allowed|].
  exists (with_data self (py_list_insert i x (data self))).
  assert (fits_ssize i = true) as Hfits
    by (unfold fits_ssize; apply andb_true_iff; split; apply Z.leb_le; lia).
  split; [|split; [|split; [reflexivity|split; [|split]]]]; simpl.
  - unfold Vec.insert. rewrite constrain_first_allowed by exact H.
    unfold UserList.insert, data_insert. simpl. by rewrite Hfits.
  - unfold Array.insert. rewrite constrain_first_allowed by exact H.
    unfold UserList.insert, data_insert. simpl. by rewrite Hfits.
  - apply py_list_insert_length.
  - apply py_list_insert_elem.
  - apply py_list_insert_shape.
Qed.

(** [Array([1, 2, 3]).insert(1, 1.5)] *)
Lemma insert_checks_only_the_index_witness :
  CClass TInt ∈ __constraints__ (Container [CClass TInt] [VInt 1; VInt 2; VInt 3])
  /\ - PY_SSIZE_T_MAX - 1 <= 1 <= PY_SSIZE_T_MAX
  /\ (forall (m : method) rest,
        _constrain m (Container [CClass TInt] [VInt 1; VInt 2; VInt 3])
          (VInt 1 :: rest)
        = m (Container [CClass TInt] [VInt 1; VInt 2; VInt 3]) (VInt 1 :: rest))
  /\ exists c,
       Vec.insert (Container [CClass TInt] [VInt 1; VInt 2; VInt 3])
         [VInt 1; VFloat 3 (-1)] = Ok (c, RNone)
       /\ Array.insert (Container [CClass TInt] [VInt 1; VInt 2; VInt 3])
            [VInt 1; VFloat 3 (-1)] = Ok (c, RNone)
       /\ __constraints__ c
          = __constraints__ (Container [CClass TInt] [VInt 1; VInt 2; VInt 3])
       /\ length (data c)
          = S (length (data (Container [CClass TInt] [VInt 1; VInt 2; VInt 3])))
       /\ VFloat 3 (-1) ∈ data c
       /\ exists p,
            (p <= length (data (Container [CClass TInt]
                                  [VInt 1; VInt 2; VInt 3])))%nat
            /\ data c
               = take p (data (Container [CClass TInt] [VInt 1; VInt 2; VInt 3]))
                 ++ VFloat 3 (-1)
                 :: drop p (data (Container [CClass TInt]
                                    [VInt 1; VInt 2; VInt 3])).
Proof.
  assert (CClass TInt
          ∈ __constraints__ (Container [CClass TInt] [VInt 1; VInt 2; VInt 3]))
    as H1 by (apply in_constraints_spec; reflexivity).
  assert (- PY_SSIZE_T_MAX - 1 <= 1 <= PY_SSIZE_T_MAX) as H2
    by (unfold PY_SSIZE_T_MAX; lia).
  split; [exact H1|]. split; [exact H2|].
  exact (insert_checks_only_the_index
           (Container [CClass TInt] [VInt 1; VInt 2; VInt 3]) 1
           (VFloat 3 (-1)) H1 H2).
Defined.

Example insert_float_into_int_array :
  Array.insert (Container [CClass TInt] [VInt 1; VInt 2; VInt 3])
    [VInt 1; VFloat 3 (-1)]
  = Ok (Container [CClass TInt] [VInt 1; VFloat 3 (-1); VInt 2; VInt 3], RNone).
Proof. reflexivity. Qed.

(** C10, as stated, fails for a call with a second positional argument:
    [insert] with a string in the index position goes on to the next
    argument, and then either raises in the guard or delegates. *)
Lemma iterable_first_argument_may_raise :
  is_iterable (VStr "ab") = true
  /\ in_constraints (class_of (VStr "ab")) [CClass TInt] = false
  /\ Array.insert (Container [CClass TInt] [VInt 1]) [VStr "ab"; VFloat 3 (-1)]
     = Raise (TypeError "Invalid type for argument")
  /\ Array.insert (Container [CClass TInt] [VInt 1]) [VStr "ab"; VInt 7]
     = UserList.insert (Container [CClass TInt] [VInt 1]) [VStr "ab"; VInt 7]
  /\ ~ (forall (m : method) self a rest,
          is_iterable a = true ->
          in_constraints (class_of a) (__constraints__ self) = false ->
          _constrain m self (a :: rest) = Ok (self, RNone)).
Proof.
  repeat split.
  intros H.
  specialize (H UserList.insert (Container [CClass TInt] [VInt 1])
                (VStr "ab") [VFloat 3 (-1)] eq_refl eq_refl).
  discriminate H.
Qed.

(** C10, amended: when every positional argument of a guarded call is an
    iterable whose own class is not in the set (so, for any one-argument
    call such as [append], [extend], [+=] or [*=] with such an argument), the
    call returns [None] without reaching the wrapped method and with the
    container as it was, whatever the elements of the iterables are. *)
Theorem skipped_arguments_are_a_silent_noop
    (m : method) (self : container) (args : list pyval) :
  Forall (skipped self) args ->
  _constrain m self args = Ok (self, RNone).
Proof. intros H. by apply constrain_loop_all_skipped. Qed.

(** [l3.extend(['d', 1.5])] on the [Vec] with set [(str, int)]. *)
Lemma skipped_arguments_are_a_silent_noop_witness :
  Forall (skipped (Container [CClass TStr; CClass TInt] [VInt 1; VStr "a"]))
    [VList [VStr "d"; VFloat 3 (-1)]]
  /\ Vec.extend (Container [CClass TStr; CClass TInt] [VInt 1; VStr "a"])
       [VList [VStr "d"; VFloat 3 (-1)]]
     = Ok (Container [CClass TStr; CClass TInt] [VInt 1; VStr "a"], RNone).
Proof.
  assert (Forall (skipped (Container [CClass TStr; CClass TInt] [VInt 1; VStr "a"]))
            [VList [VStr "d"; VFloat 3 (-1)]]) as H
    by (repeat constructor).
  split; [exact H|].
  exact (skipped_arguments_are_a_silent_noop _ _ _ H).
Defined.

(** The example of the claim: [extend] with a list on a container whose set
    has no [list]. *)
Lemma extend_with_list_is_noop (self : container) (l : list pyval) :
  CClass TList ∉ __constraints__ self ->
  Vec.extend self [VList l] = Ok (self, RNone)
  /\ Array.extend self [VList l] = Ok (self, RNone)
  /\ Vec.__iadd__ self [VList l] = Ok (self, RNone).
Proof.
  intros H. apply in_constraints_false in H.
  assert (Forall (skipped self) [VList l]) as Hs by (repeat constructor; done).
  repeat split; by apply constrain_loop_all_skipped.
Qed.

(** ** The element-type invariant under the guarded operations *)

(** [append] reaches [UserList.append] only with an element of an allowed
    class, and otherwise leaves the data alone. *)
Lemma append_preserves_well_typed (self : container) (x : pyval) c r :
  well_typed self ->
  _constrain UserList.append self [x] = Ok (c, r) ->
  well_typed c.
Proof.
  intros Hwt. unfold _constrain. simpl.
  destruct (in_constraints (class_of x) (__constraints__ self)) eqn:Hin; simpl.
  - intros [= <- <-]. unfold well_typed, with_data. simpl.
    apply Forall_app. split; [exact Hwt|].
    apply Forall_cons. split; [by apply in_constraints_spec | constructor].
  - destruct (py_iter x) as [es|]; [|discriminate].
    rewrite all_classes_true. simpl. by intros [= <- <-].
Qed.

(** Indexed assignment with an integer key tests the value itself. *)
Lemma setitem_preserves_well_typed (self : container) (key val : pyval) c r :
  well_typed self ->
  __constrained_setitem__ self key val = Ok (c, r) ->
  well_typed c.
Proof.
  intros Hwt. unfold __constrained_setitem__.
  destruct (in_constraints (class_of val) (__constraints__ self)) eqn:Hin;
    [|discriminate].
  unfold UserList.__setitem__. destruct (as_index key) as [k|]; [|discriminate].
  unfold py_list_setitem.
  destruct ((_ <? 0) || _); simpl; [discriminate|].
  intros [= <- <-]. unfold well_typed, with_data. simpl.
  apply Forall_insert; [exact Hwt | by apply in_constraints_spec].
Qed.

(** A rejected indexed assignment raises and returns no new state. *)
Lemma setitem_rejects (self : container) (key val : pyval) :
  CClass (class_of val) ∉ __constraints__ self ->
  __constrained_setitem__ self key val
  = Raise (TypeError "Invalid value type for Constrained class").
Proof.
  intros H. apply in_constraints_false in H.
  unfold __constrained_setitem__. by rewrite H.
Qed.

(** C1 on the source's own [Array]: the instance built from [[1, 2, 3]]
    satisfies the invariant, and [insert(0, 1.5)] then stores a float in it,
    because the guard looks at the index and delegates. *)
Theorem insert_breaks_element_invariant :
  Array.new (BVal (VList [VInt 1; VInt 2; VInt 3])) None
  = Ok (Container [CClass TInt] [VInt 1; VInt 2; VInt 3])
  /\ well_typed (Container [CClass TInt] [VInt 1; VInt 2; VInt 3])
  /\ Array.insert (Container [CClass TInt] [VInt 1; VInt 2; VInt 3])
       [VInt 0; VFloat 3 (-1)]
     = Ok (Container [CClass TInt] [VFloat 3 (-1); VInt 1; VInt 2; VInt 3],
           RNone)
  /\ ~ well_typed
         (Container [CClass TInt] [VFloat 3 (-1); VInt 1; VInt 2; VInt 3]).
Proof.
  split; [reflexivity|]. split; [|split; [reflexivity|]].
  - by apply well_typedb_spec.
  - intros H. apply well_typedb_spec in H. discriminate H.
Qed.

(** The same loss through [extend], when the class of the batch itself is
    an allowed one. *)
Example extend_breaks_element_invariant :
  Vec.extend (Container [CClass TList] [VList [VInt 1]])
    [VList [VInt 2; VInt 3]]
  = Ok (Container [CClass TList] [VList [VInt 1]; VInt 2; VInt 3], RNone)
  /\ well_typedb (Container [CClass TList] [VList [VInt 1]; VInt 2; VInt 3])
     = false.
Proof. split; reflexivity. Qed.

(** C2 on the source's [Array]: [extend([4, 'x'])] and [append('x')] are
    not carried out, and neither raises: both return [None]. *)
Theorem rejected_iterable_is_not_reported :
  Array.extend (Container [CClass TInt] [VInt 1; VInt 2; VInt 3])
    [VList [VInt 4; VStr "x"]]
  = Ok (Container [CClass TInt] [VInt 1; VInt 2; VInt 3], RNone)
  /\ Array.append (Container [CClass TInt] [VInt 1; VInt 2; VInt 3])
       [VStr "x"]
     = Ok (Container [CClass TInt] [VInt 1; VInt 2; VInt 3], RNone).
Proof. split; reflexivity. Qed.

(** What does hold of a guarded call that ends without reaching the wrapped
    method: the container it returns, if any, is the receiver. *)
Lemma guard_without_delegation_keeps_state (m : method) self args c r :
  _constrain m self args <> m self args ->
  _constrain m self args = Ok (c, r) ->
  c = self /\ r = RNone.
Proof.
  unfold _constrain. intros Hnd H.
  destruct (constrain_loop_cases m self args args) as [E|[E|E]].
  - contradiction.
  - rewrite E in H. by inversion H.
  - rewrite E in H. discriminate.
Qed.

(** C6 on the source's [l3]: the construction succeeds, [extend(['d', 'b'])]
    returns [None] and leaves [[1, 'a']], and appending a float raises. *)
Theorem extend_scenario_leaves_data_unchanged :
  Vec.new (BVal (VList [VInt 1; VStr "a"])) (Some [CClass TStr; CClass TInt])
  = Ok (Container [CClass TStr; CClass TInt] [VInt 1; VStr "a"])
  /\ Vec.extend (Container [CClass TStr; CClass TInt] [VInt 1; VStr "a"])
       [VList [VStr "d"; VStr "b"]]
     = Ok (Container [CClass TStr; CClass TInt] [VInt 1; VStr "a"], RNone)
  /\ Vec.append (Container [CClass TStr; CClass TInt] [VInt 1; VStr "a"])
       [VFloat 3 (-1)]
     = Raise (TypeError "Invalid type for argument").
Proof. repeat split. Qed.

(** C7 on the source's [l]: [l *= 2] on the [Vec] with set [(str,)] raises
    in the guard, since [int] is not an allowed class; on an [Array], whose
    set is [(int,)], the same call repeats the data. *)
Theorem imul_rejects_count_outside_constraints :
  Vec.__imul__ (Container [CClass TStr] [VStr "a"; VStr "b"]) [VInt 2]
  = Raise (TypeError "Invalid type for argument")
  /\ StrArray.__imul__ (Container [CClass TStr] [VStr "a"; VStr "b"]) [VInt 2]
     = Raise (TypeError "Invalid type for argument")
  /\ Array.__imul__ (Container [CClass TInt] [VInt 1; VInt 2]) [VInt 2]
     = Ok (Container [CClass TInt] [VInt 1; VInt 2; VInt 1; VInt 2], RSelf).
Proof. repeat split. Qed.

(** In general the guard lets [*=] through exactly when the class of the
    count is an allowed one. *)
Lemma imul_delegates_iff_count_allowed (self : container) (n : Z) :
  (CClass TInt ∈ __constraints__ self ->
   Vec.__imul__ self [VInt n] = data_imul self (VInt n))
  /\ (CClass TInt ∉ __constraints__ self ->
      Vec.__imul__ self [VInt n]
      = Raise (TypeError "Invalid type for argument")).
Proof.
  split; intros H.
  - unfold Vec.__imul__. by rewrite constrain_first_allowed.
  - apply in_constraints_false in H. unfold Vec.__imul__, _constrain.
    by rewrite constrain_loop_scalar.
Qed.

(** * Further properties of the guard and of the guarded operations *)

(** ** How the guard decides *)

Lemma constrain_loop_skip_prefix (m : method) self args pre todo :
  Forall (skipped self) pre ->
  constrain_loop m self args (pre ++ todo) = constrain_loop m self args todo.
Proof.
  induction pre as [|p pre IH]; intros Hpre; [reflexivity|].
  apply Forall_cons in Hpre as [Hp Hpre]. simpl app.
  rewrite constrain_loop_skip by exact Hp. by apply IH.
Qed.

Ltac allowed_here := apply in_constraints_spec; reflexivity.

(** X1: the first positional argument that is not skipped decides the call.
    When it has an allowed class, the wrapped method is called with the
    whole, unchanged argument tuple: the arguments before it (iterables of
    other classes) and after it are never tested. *)
Theorem guard_delegates_at_first_allowed
    (m : method) (self : container) (pre : list pyval) (a : pyval)
    (post : list pyval) :
  Forall (skipped self) pre ->
  CClass (class_of a) ∈ __constraints__ self ->
  _constrain m self (pre ++ a :: post) = m self (pre ++ a :: post).
Proof.
  intros Hpre Ha. unfold _constrain.
  rewrite constrain_loop_skip_prefix by exact Hpre.
  apply constrain_loop_allowed. by apply in_constraints_spec.
Qed.

(** [Array([1]).insert('ab', 7)]: the list then refuses the index. *)
Lemma guard_delegates_at_first_allowed_witness :
  Forall (skipped (Container [CClass TInt] [VInt 1])) [VStr "ab"]
  /\ CClass (class_of (VInt 7)) ∈ __constraints__ (Container [CClass TInt] [VInt 1])
  /\ _constrain UserList.insert (Container [CClass TInt] [VInt 1])
       ([VStr "ab"] ++ VInt 7 :: [])
     = UserList.insert (Container [CClass TInt] [VInt 1])
         ([VStr "ab"] ++ VInt 7 :: []).
Proof.
  assert (Forall (skipped (Container [CClass TInt] [VInt 1])) [VStr "ab"])
    as H1 by (repeat constructor).
  assert (CClass (class_of (VInt 7))
          ∈ __constraints__ (Container [CClass TInt] [VInt 1]))
    as H2 by allowed_here.
  split; [exact H1|]. split; [exact H2|].
  exact (guard_delegates_at_first_allowed UserList.insert _ _ _ [] H1 H2).
Defined.

(** X2: when the first positional argument that is not skipped is not
    iterable and its class is not allowed, the call raises
    [TypeError("Invalid type for argument")] without reaching the wrapped
    method, whatever the later arguments are. *)
Theorem guard_rejects_at_first_scalar
    (m : method) (self : container) (pre : list pyval) (a : pyval)
    (post : list pyval) :
  Forall (skipped self) pre ->
  is_iterable a = false ->
  CClass (class_of a) ∉ __constraints__ self ->
  _constrain m self (pre ++ a :: post)
  = Raise (TypeError "Invalid type for argument").
Proof.
  intros Hpre Hit Ha. unfold _constrain.
  rewrite constrain_loop_skip_prefix by exact Hpre.
  apply constrain_loop_scalar; [exact Hit | by apply in_constraints_false].
Qed.

(** [StrArray(['a']).insert(0, 'b')]: the index is an [int]. *)
Lemma guard_rejects_at_first_scalar_witness :
  Forall (skipped (Container [CClass TStr] [VStr "a"])) []
  /\ is_iterable (VInt 0) = false
  /\ (CClass (class_of (VInt 0))
      ∉ __constraints__ (Container [CClass TStr] [VStr "a"]))
  /\ _constrain UserList.insert (Container [CClass TStr] [VStr "a"])
       ([] ++ VInt 0 :: [VStr "b"])
     = Raise (TypeError "Invalid type for argument").
Proof.
  assert (CClass (class_of (VInt 0))
          ∉ __constraints__ (Container [CClass TStr] [VStr "a"]))
    as H by (apply in_constraints_false; reflexivity).
  split; [constructor|]. split; [reflexivity|]. split; [exact H|].
  exact (guard_rejects_at_first_scalar UserList.insert _ [] (VInt 0)
           [VStr "b"] (Forall_nil_2 _) eq_refl H).
Defined.

(** X3: a guarded call has one of three outcomes: that of the wrapped
    method on the same receiver and arguments, [None] with the receiver
    untouched, or [TypeError("Invalid type for argument")].  The guard's
    other error, "Invalid element types", is never raised by the guard. *)
Theorem guard_has_three_outcomes
    (m : method) (self : container) (args : list pyval) :
  _constrain m self args = m self args
  \/ _constrain m self args = Ok (self, RNone)
  \/ _constrain m self args = Raise (TypeError "Invalid type for argument").
Proof.
  unfold _constrain.
  destruct (constrain_loop_cases m self args args) as [E|[E|E]]; rewrite E; auto.
Qed.

(** ** One-argument calls and the wrapped methods *)

Lemma guard_single (m : method) self a :
  _constrain m self [a]
  = if in_constraints (class_of a) (__constraints__ self) then m self [a]
    else if is_iterable a then Ok (self, RNone)
         else Raise (TypeError "Invalid type for argument").
Proof.
  unfold _constrain, is_iterable. simpl.
  destruct (in_constraints _ _); simpl; [reflexivity|].
  destruct (py_iter a); [by rewrite all_classes_true | reflexivity].
Qed.

Lemma guard_keeps_constraints (m : method) :
  keeps_constraints m -> keeps_constraints (_constrain m).
Proof.
  intros Hm self args c r H. unfold _constrain in H.
  destruct (constrain_loop_cases m self args args) as [E|[E|E]];
    rewrite E in H.
  - by apply Hm in H.
  - by inversion H.
  - discriminate.
Qed.

Lemma extend_body_keeps_constraints : keeps_constraints Vec.extend_body.
Proof.
  intros self [|o [|? ?]] c r; try discriminate.
  unfold Vec.extend_body, py_list_extend. destruct (py_iter o); [|discriminate].
  simpl. by intros [= <- <-].
Qed.

Lemma iadd_body_keeps_constraints : keeps_constraints Vec.iadd_body.
Proof.
  intros self [|o [|? ?]] c r; try discriminate.
  unfold Vec.iadd_body, py_list_extend. destruct (py_iter o); [|discriminate].
  simpl. by intros [= <- <-].
Qed.

Lemma imul_body_keeps_constraints : keeps_constraints Vec.imul_body.
Proof.
  intros self [|n [|? ?]] c r; try discriminate.
  unfold Vec.imul_body, data_imul. destruct (as_index n); [|discriminate].
  destruct (py_list_inplace_repeat _ _); [|discriminate].
  simpl. by intros [= <- <-].
Qed.

Lemma append_body_keeps_constraints : keeps_constraints UserList.append.
Proof.
  intros self [|x [|? ?]] c r; try discriminate. by intros [= <- <-].
Qed.

Lemma insert_body_keeps_constraints : keeps_constraints UserList.insert.
Proof.
  intros self [|i [|x [|? ?]]] c r; try discriminate.
  unfold UserList.insert, data_insert. destruct (as_index i); [|discriminate].
  destruct (fits_ssize _); [|discriminate].
  by intros [= <- <-].
Qed.

Lemma setitem_keeps_constraints self key val c r :
  __constrained_setitem__ self key val = Ok (c, r) ->
  __constraints__ c = __constraints__ self.
Proof.
  unfold __constrained_setitem__, UserList.__setitem__.
  destruct (in_constraints _ _); [|discriminate].
  destruct (as_index key) as [k|]; [|discriminate].
  destruct (py_list_setitem k val (data self)); [|discriminate].
  simpl. by intros [= <- <-].
Qed.

Lemma step_keeps_constraints self cl c r :
  step self cl = Ok (c, r) -> __constraints__ c = __constraints__ self.
Proof.
  destruct cl; simpl.
  - apply (guard_keeps_constraints _ append_body_keeps_constraints).
  - apply (guard_keeps_constraints _ insert_body_keeps_constraints).
  - apply (guard_keeps_constraints _ extend_body_keeps_constraints).
  - apply (guard_keeps_constraints _ imul_body_keeps_constraints).
  - apply (guard_keeps_constraints _ iadd_body_keeps_constraints).
  - apply setitem_keeps_constraints.
Qed.

(** X4: no sequence of calls (append, insert, extend, [*=], [+=], indexed
    assignment; successful, silent or raising) changes the instance's
    [__constraints__]. *)
Theorem constraints_are_fixed_for_life (self : container) (calls : list call) :
  __constraints__ (run self calls) = __constraints__ self.
Proof.
  revert self. induction calls as [|cl calls IH]; intros self; [reflexivity|].
  simpl. destruct (step self cl) as [[c r]|e] eqn:E; [|apply IH].
  rewrite IH. by apply step_keeps_constraints in E.
Qed.

(** ** Which calls keep the element-type invariant *)

Lemma concat_replicate_elem (x : pyval) (k : nat) (l : list pyval) :
  x ∈ concat (replicate k l) -> x ∈ l.
Proof.
  induction k as [|k IH]; simpl; [by intros H; inversion H|].
  rewrite elem_of_app. intros [H|H]; [exact H | by apply IH].
Qed.

Lemma concat_replicate_length (k : nat) (l : list pyval) :
  length (concat (replicate k l)) = (k * length l)%nat.
Proof.
  induction k as [|k IH]; simpl; [reflexivity|].
  rewrite length_app, IH. reflexivity.
Qed.

Lemma py_list_imul_elem (x : pyval) (n : Z) (l : list pyval) :
  x ∈ py_list_imul n l -> x ∈ l.
Proof.
  unfold py_list_imul. destruct (n <=? 0); [by intros H; inversion H|].
  apply concat_replicate_elem.
Qed.

Lemma py_list_imul_len (n : Z) (l : list pyval) :
  len (py_list_imul n l) = Z.max 0 n * len l.
Proof.
  unfold py_list_imul, len. destruct (Z.leb_spec n 0) as [Hn|Hn].
  - simpl. lia.
  - rewrite concat_replicate_length. lia.
Qed.

(** What [l *= n] leaves when it returns. *)
Lemma py_list_inplace_repeat_ok (n : Z) (l d : list pyval) :
  py_list_inplace_repeat n l = Ok d ->
  len d = Z.max 0 n * len l /\ forall x, x ∈ d -> x ∈ l.
Proof.
  unfold py_list_inplace_repeat.
  destruct (fits_ssize n); simpl; [|discriminate].
  destruct (Z.eqb_spec (len l) 0) as [Hl|Hl]; simpl.
  - intros [= <-]. split; [lia | auto].
  - destruct (Z.eqb_spec n 1) as [->|Hn]; simpl.
    + intros [= <-]. split; [lia | auto].
    + destruct (Z.ltb_spec n 1) as [Hlt|Hge].
      * intros [= <-]. split; [unfold len; simpl; lia|].
        intros x Hx. inversion Hx.
      * destruct (_ <? len l); [discriminate|].
        intros [= <-]. split; [apply py_list_imul_len|].
        intros x. apply py_list_imul_elem.
Qed.

Lemma imul_preserves_well_typed self (n : pyval) c r :
  well_typed self ->
  Vec.__imul__ self [n] = Ok (c, r) ->
  well_typed c.
Proof.
  intros Hwt. unfold Vec.__imul__. rewrite guard_single.
  destruct (in_constraints _ _).
  - unfold Vec.imul_body, data_imul.
    destruct (as_index n) as [k|]; [|discriminate].
    destruct (py_list_inplace_repeat k (data self)) as [d|e] eqn:Hd;
      [|discriminate].
    simpl. intros [= <- <-]. unfold well_typed, with_data in *. simpl.
    apply py_list_inplace_repeat_ok in Hd as [_ Hd].
    rewrite Forall_forall in *. intros x Hx. by apply Hwt, Hd.
  - destruct (is_iterable n); [|discriminate]. by intros [= <- <-].
Qed.

Lemma safe_step_preserves_well_typed self cl c r :
  element_safe cl = true ->
  well_typed self ->
  step self cl = Ok (c, r) ->
  well_typed c.
Proof.
  intros Hsafe Hwt. destruct cl; try discriminate; simpl.
  - by apply append_preserves_well_typed.
  - by apply imul_preserves_well_typed.
  - by apply setitem_preserves_well_typed.
Qed.

(** X5: on every [Vec], whatever its set, [append], [*=] and the
    assignment at a key that is not a slice keep the element-type
    invariant: after any sequence of such calls, some of which may raise or
    be ignored, every stored element still has an allowed class. *)
Theorem safe_calls_keep_elements_typed (self : container) (calls : list call) :
  well_typed self ->
  Forall (fun cl => element_safe cl = true) calls ->
  well_typed (run self calls).
Proof.
  revert self. induction calls as [|cl calls IH]; intros self Hwt Hsafe;
    [exact Hwt|].
  apply Forall_cons in Hsafe as [Hcl Hsafe]. simpl.
  destruct (step self cl) as [[c r]|e] eqn:E; [|by apply IH].
  apply IH; [|exact Hsafe].
  by apply (safe_step_preserves_well_typed self cl c r).
Qed.

(** The source's [l]: an assignment, an append, a rejected append, [*= 2]. *)
Lemma safe_calls_keep_elements_typed_witness :
  well_typed (Container [CClass TStr] [VStr "a"; VStr "b"])
  /\ Forall (fun cl => element_safe cl = true)
       [SetItem (VInt 1) (VStr "c"); Append (VStr "c"); Append (VInt 1);
        IMul (VInt 2)]
  /\ well_typed
       (run (Container [CClass TStr] [VStr "a"; VStr "b"])
          [SetItem (VInt 1) (VStr "c"); Append (VStr "c"); Append (VInt 1);
           IMul (VInt 2)]).
Proof.
  assert (well_typed (Container [CClass TStr] [VStr "a"; VStr "b"])) as H1
    by (by apply well_typedb_spec).
  assert (Forall (fun cl => element_safe cl = true)
            [SetItem (VInt 1) (VStr "c"); Append (VStr "c"); Append (VInt 1);
             IMul (VInt 2)]) as H2
    by (repeat constructor).
  split; [exact H1|]. split; [exact H2|].
  exact (safe_calls_keep_elements_typed _ _ H1 H2).
Defined.











Lemma constrain_loop_none_allowed (m : method) self args todo c r :
  Forall (fun a => CClass (class_of a) ∉ __constraints__ self) todo ->
  constrain_loop m self args todo = Ok (c, r) ->
  c = self /\ r = RNone.
Proof.
  induction todo as [|a todo IH]; intros Hall; simpl.
  - by intros [= <- <-].
  - apply Forall_cons in Hall as [Ha Hall].
    apply in_constraints_false in Ha. rewrite Ha. simpl.
    destruct (py_iter a); [|discriminate].
    rewrite all_classes_true. simpl. by apply IH.
Qed.

(** X7: a guarded call none of whose positional arguments has an allowed
    class never reaches the wrapped method: if it returns, it returns
    [None] and the container is what it was.  So [extend] and [+=] add
    nothing unless the class of the batch itself is allowed, whatever the
    classes of its elements. *)
Theorem no_allowed_argument_no_change
    (m : method) (self : container) (args : list pyval)
    (c : container) (r : retval) :
  Forall (fun a => CClass (class_of a) ∉ __constraints__ self) args ->
  _constrain m self args = Ok (c, r) ->
  c = self /\ r = RNone.
Proof. intros Hall. by apply constrain_loop_none_allowed. Qed.

(** [Array([1, 2, 3]) += [4, 5]] *)
Lemma no_allowed_argument_no_change_witness :
  Forall (fun a => CClass (class_of a)
                     ∉ __constraints__
                         (Container [CClass TInt] [VInt 1; VInt 2; VInt 3]))
    [VList [VInt 4; VInt 5]]
  /\ _constrain UserList.__iadd__
       (Container [CClass TInt] [VInt 1; VInt 2; VInt 3])
       [VList [VInt 4; VInt 5]]
     = Ok (Container [CClass TInt] [VInt 1; VInt 2; VInt 3], RNone)
  /\ Container [CClass TInt] [VInt 1; VInt 2; VInt 3]
     = Container [CClass TInt] [VInt 1; VInt 2; VInt 3]
  /\ RNone = RNone.
Proof.
  assert (Forall (fun a => CClass (class_of a)
                             ∉ __constraints__
                                 (Container [CClass TInt]
                                    [VInt 1; VInt 2; VInt 3]))
            [VList [VInt 4; VInt 5]]) as H1
    by (repeat constructor; apply in_constraints_false; reflexivity).
  assert (_constrain UserList.__iadd__
            (Container [CClass TInt] [VInt 1; VInt 2; VInt 3])
            [VList [VInt 4; VInt 5]]
          = Ok (Container [CClass TInt] [VInt 1; VInt 2; VInt 3], RNone))
    as H2 by reflexivity.
  split; [exact H1|]. split; [exact H2|].
  exact (no_allowed_argument_no_change _ _ _ _ _ H1 H2).
Defined.

(** ** Successful calls *)

(** X9: when [c *= n] with an integer [n] returns, [int] is an allowed
    class, the call has returned the container, the set is unchanged, the
    length is [max(0, n)] times the old one (so a count of zero or less has
    emptied the container), and no element is there that was not there
    before. *)
Theorem imul_scales_the_length
    (self : container) (n : Z) (c : container) (r : retval) :
  Vec.__imul__ self [VInt n] = Ok (c, r) ->
  r = RSelf
  /\ CClass TInt ∈ __constraints__ self
  /\ __constraints__ c = __constraints__ self
  /\ len (data c) = Z.max 0 n * len (data self)
  /\ forall x, x ∈ data c -> x ∈ data self.
Proof.
  unfold Vec.__imul__. rewrite guard_single. simpl.
  destruct (in_constraints TInt (__constraints__ self)) eqn:Hin;
    [|discriminate].
  unfold Vec.imul_body, data_imul. simpl.
  destruct (py_list_inplace_repeat n (data self)) as [d|e] eqn:Hd;
    [|discriminate].
  simpl. intros [= <- <-]. simpl.
  apply py_list_inplace_repeat_ok in Hd as [Hlen Hsub].
  split; [reflexivity|]. split; [by apply in_constraints_spec|].
  split; [reflexivity|]. by split.
Qed.

(** [v *= 0] on a [Vec] with the set [(int,)] holding [[1, 2]]. *)
Lemma imul_scales_the_length_witness :
  Vec.__imul__ (Container [CClass TInt] [VInt 1; VInt 2]) [VInt 0]
  = Ok (Container [CClass TInt] [], RSelf)
  /\ RSelf = RSelf
  /\ CClass TInt ∈ __constraints__ (Container [CClass TInt] [VInt 1; VInt 2])
  /\ __constraints__ (Container [CClass TInt] [])
     = __constraints__ (Container [CClass TInt] [VInt 1; VInt 2])
  /\ len (data (Container [CClass TInt] []))
     = Z.max 0 0 * len (data (Container [CClass TInt] [VInt 1; VInt 2]))
  /\ forall x, x ∈ data (Container [CClass TInt] []) ->
               x ∈ data (Container [CClass TInt] [VInt 1; VInt 2]).
Proof.
  assert (Vec.__imul__ (Container [CClass TInt] [VInt 1; VInt 2]) [VInt 0]
          = Ok (Container [CClass TInt] [], RSelf)) as H by reflexivity.
  split; [exact H|].
  exact (imul_scales_the_length _ 0 _ _ H).
Defined.

Lemma chars_length (s : string) : length (chars s) = String.length s.
Proof. induction s; simpl; congruence. Qed.

(** X10: with [str] an allowed class, [append] stores a string as one
    element, while [extend] and [+=] of a [Vec] store each of its characters
    as an element of its own; on a [StrArray] (or an [Array]), whose
    [extend] and [+=] are those of [UserList], the same calls raise
    [AttributeError], because the subclass hook lets a [str] pass for a
    [UserList]. *)
Theorem extend_splits_an_allowed_string (self : container) (s : string) :
  CClass TStr ∈ __constraints__ self ->
  (exists c, Vec.append self [VStr s] = Ok (c, RNone)
             /\ data c = data self ++ [VStr s])
  /\ (exists c, Vec.extend self [VStr s] = Ok (c, RNone)
                /\ data c = data self ++ chars s)
  /\ (exists c, Vec.__iadd__ self [VStr s] = Ok (c, RSelf)
                /\ data c = data self ++ chars s)
  /\ StrArray.extend self [VStr s]
     = Raise (AttributeError "'str' object has no attribute 'data'")
  /\ StrArray.__iadd__ self [VStr s]
     = Raise (AttributeError "'str' object has no attribute 'data'")
  /\ length (chars s) = String.length s
  /\ Forall (fun v => exists c, v = VStr (String c EmptyString)) (chars s).
Proof.
  intros H. repeat split.
  - exists (with_data self (data self ++ [VStr s])). split; [|reflexivity].
    unfold Vec.append. by rewrite constrain_first_allowed.
  - exists (with_data self (data self ++ chars s)). split; [|reflexivity].
    unfold Vec.extend. by rewrite constrain_first_allowed.
  - exists (with_data self (data self ++ chars s)). split; [|reflexivity].
    unfold Vec.__iadd__. by rewrite constrain_first_allowed.
  - unfold StrArray.extend. by rewrite constrain_first_allowed.
  - unfold StrArray.__iadd__. by rewrite constrain_first_allowed.
  - apply chars_length.
  - induction s as [|c s IH]; simpl; constructor; eauto.
Qed.

(** [l.extend('cd')] on the source's [l], a [Vec] with the set [(str,)]. *)
Lemma extend_splits_an_allowed_string_witness :
  CClass TStr ∈ __constraints__ (Container [CClass TStr] [VStr "a"; VStr "b"])
  /\ (exists c,
        Vec.append (Container [CClass TStr] [VStr "a"; VStr "b"]) [VStr "cd"]
        = Ok (c, RNone)
        /\ data c = data (Container [CClass TStr] [VStr "a"; VStr "b"])
                    ++ [VStr "cd"])
  /\ (exists c,
        Vec.extend (Container [CClass TStr] [VStr "a"; VStr "b"]) [VStr "cd"]
        = Ok (c, RNone)
        /\ data c = data (Container [CClass TStr] [VStr "a"; VStr "b"])
                    ++ chars "cd")
  /\ (exists c,
        Vec.__iadd__ (Container [CClass TStr] [VStr "a"; VStr "b"]) [VStr "cd"]
        = Ok (c, RSelf)
        /\ data c = data (Container [CClass TStr] [VStr "a"; VStr "b"])
                    ++ chars "cd")
  /\ StrArray.extend (Container [CClass TStr] [VStr "a"; VStr "b"]) [VStr "cd"]
     = Raise (AttributeError "'str' object has no attribute 'data'")
  /\ StrArray.__iadd__ (Container [CClass TStr] [VStr "a"; VStr "b"])
       [VStr "cd"]
     = Raise (AttributeError "'str' object has no attribute 'data'")
  /\ length (chars "cd") = String.length "cd"
  /\ Forall (fun v => exists c, v = VStr (String c EmptyString)) (chars "cd").
Proof.
  assert (CClass TStr
          ∈ __constraints__ (Container [CClass TStr] [VStr "a"; VStr "b"]))
    as H by allowed_here.
  split; [exact H|].
  exact (extend_splits_an_allowed_string _ "cd" H).
Defined.

(** ** Indexed assignment *)

Lemma py_list_setitem_in_range (k : Z) (v : pyval) (l : list pyval) :
  - len l <= k < len l ->
  py_list_setitem k v l = Ok (<[Z.to_nat (k mod len l) := v]> l).
Proof.
  intros Hk. unfold py_list_setitem.
  destruct (Z.ltb_spec k 0) as [Hneg|Hpos].
  - replace (k mod len l) with (k + len l)
      by (apply Z.mod_unique with (q := -1); lia).
    destruct (Z.ltb_spec (k + len l) 0); [lia|].
    destruct (Z.leb_spec (len l) (k + len l)); [lia|]. reflexivity.
  - rewrite Z.mod_small by lia.
    destruct (Z.ltb_spec k 0); [lia|].
    destruct (Z.leb_spec (len l) k); [lia|]. reflexivity.
Qed.

Lemma py_list_setitem_out_of_range (k : Z) (v : pyval) (l : list pyval) :
  k < - len l \/ len l <= k ->
  py_list_setitem k v l
  = Raise (IndexError
             (if fits_ssize k then "list assignment index out of range"
              else "cannot fit 'int' into an index-sized integer")).
Proof.
  intros Hk. unfold py_list_setitem.
  destruct (Z.ltb_spec k 0) as [Hneg|Hpos].
  - destruct (Z.ltb_spec (k + len l) 0); [reflexivity|].
    destruct (Z.leb_spec (len l) (k + len l)); [reflexivity|]. lia.
  - destruct (Z.ltb_spec k 0); [lia|].
    destruct (Z.leb_spec (len l) k); [reflexivity|]. lia.
Qed.

(** X11: assigning a value of an allowed class at an integer key [k] with
    [-len <= k < len] succeeds; afterwards the list has the same length,
    position [k mod len] holds the value, and every other position holds
    what it held before. *)
Theorem setitem_then_lookup
    (self : container) (k : Z) (v : pyval) :
  CClass (class_of v) ∈ __constraints__ self ->
  - len (data self) <= k < len (data self) ->
  exists c,
    __constrained_setitem__ self (VInt k) v = Ok (c, RNone)
    /\ __constraints__ c = __constraints__ self
    /\ length (data c) = length (data self)
    /\ data c !! Z.to_nat (k mod len (data self)) = Some v
    /\ forall j, j <> Z.to_nat (k mod len (data self)) ->
                 data c !! j = data self !! j.
Proof.
  intros Hv Hk.
  exists (with_data self (<[Z.to_nat (k mod len (data self)) := v]> (data self))).
  apply in_constraints_spec in Hv.
  split; [|split; [reflexivity|split; [|split]]]; simpl.
  - unfold __constrained_setitem__, UserList.__setitem__. rewrite Hv. simpl.
    by rewrite py_list_setitem_in_range.
  - apply length_insert.
  - apply list_lookup_insert_eq.
    assert (0 <= k mod len (data self) < len (data self))
      by (apply Z.mod_pos_bound; lia).
    unfold len in *. lia.
  - intros j Hj. by apply list_lookup_insert_ne.
Qed.

(** [l[-1] = 'c'] on the source's [l]. *)
Lemma setitem_then_lookup_witness :
  CClass (class_of (VStr "c"))
    ∈ __constraints__ (Container [CClass TStr] [VStr "a"; VStr "b"])
  /\ - len (data (Container [CClass TStr] [VStr "a"; VStr "b"])) <= -1
       < len (data (Container [CClass TStr] [VStr "a"; VStr "b"]))
  /\ exists c,
       __constrained_setitem__ (Container [CClass TStr] [VStr "a"; VStr "b"])
         (VInt (-1)) (VStr "c") = Ok (c, RNone)
       /\ __constraints__ c
          = __constraints__ (Container [CClass TStr] [VStr "a"; VStr "b"])
       /\ length (data c)
          = length (data (Container [CClass TStr] [VStr "a"; VStr "b"]))
       /\ data c !! Z.to_nat
                      (-1 mod len (data (Container [CClass TStr]
                                           [VStr "a"; VStr "b"])))
          = Some (VStr "c")
       /\ forall j,
            j <> Z.to_nat
                   (-1 mod len (data (Container [CClass TStr]
                                        [VStr "a"; VStr "b"]))) ->
            data c !! j
            = data (Container [CClass TStr] [VStr "a"; VStr "b"]) !! j.
Proof.
  assert (CClass (class_of (VStr "c"))
          ∈ __constraints__ (Container [CClass TStr] [VStr "a"; VStr "b"]))
    as H1 by allowed_here.
  assert (- len (data (Container [CClass TStr] [VStr "a"; VStr "b"])) <= -1
          < len (data (Container [CClass TStr] [VStr "a"; VStr "b"])))
    as H2 by (vm_compute; split; [discriminate | reflexivity]).
  split; [exact H1|]. split; [exact H2|].
  exact (setitem_then_lookup _ (-1) (VStr "c") H1 H2).
Defined.

(** X12: assigning a value of an allowed class at an integer key outside
    [-len .. len - 1] (any key at all on an empty container) raises
    [IndexError]: "list assignment index out of range" for a key that fits a
    C [ssize_t], "cannot fit 'int' into an index-sized integer" for one that
    does not. *)
Theorem setitem_out_of_range_raises
    (self : container) (k : Z) (v : pyval) :
  CClass (class_of v) ∈ __constraints__ self ->
  k < - len (data self) \/ len (data self) <= k ->
  __constrained_setitem__ self (VInt k) v
  = Raise (IndexError
             (if fits_ssize k then "list assignment index out of range"
              else "cannot fit 'int' into an index-sized integer")).
Proof.
  intros Hv Hk. apply in_constraints_spec in Hv.
  unfold __constrained_setitem__, UserList.__setitem__. rewrite Hv. simpl.
  by rewrite py_list_setitem_out_of_range.
Qed.

(** [l[2 ** 64] = 'c'] on the source's two-element [l]. *)
Lemma setitem_out_of_range_raises_witness :
  CClass (class_of (VStr "c"))
    ∈ __constraints__ (Container [CClass TStr] [VStr "a"; VStr "b"])
  /\ (2 ^ 64 < - len (data (Container [CClass TStr] [VStr "a"; VStr "b"]))
      \/ len (data (Container [CClass TStr] [VStr "a"; VStr "b"])) <= 2 ^ 64)
  /\ __constrained_setitem__ (Container [CClass TStr] [VStr "a"; VStr "b"])
       (VInt (2 ^ 64)) (VStr "c")
     = Raise (IndexError
                (if fits_ssize (2 ^ 64)
                 then "list assignment index out of range"
                 else "cannot fit 'int' into an index-sized integer")).
Proof.
  assert (CClass (class_of (VStr "c"))
          ∈ __constraints__ (Container [CClass TStr] [VStr "a"; VStr "b"]))
    as H1 by allowed_here.
  assert (2 ^ 64 < - len (data (Container [CClass TStr] [VStr "a"; VStr "b"]))
          \/ len (data (Container [CClass TStr] [VStr "a"; VStr "b"])) <= 2 ^ 64)
    as H2 by (right; vm_compute; discriminate).
  split; [exact H1|]. split; [exact H2|].
  exact (setitem_out_of_range_raises _ (2 ^ 64) (VStr "c") H1 H2).
Defined.

Example setitem_just_out_of_range :
  __constrained_setitem__ (Container [CClass TStr] [VStr "a"; VStr "b"])
    (VInt 2) (VStr "c")
  = Raise (IndexError "list assignment index out of range").
Proof. reflexivity. Qed.

(** X13: assigning a value whose class is not allowed raises the type
    error whatever the key is: the value is tested before the key, so an
    out-of-range or non-integer key does not turn the error into another;
    and, unlike [append], the assignment is never silently ignored, also when
    the value is an iterable. *)
Theorem setitem_tests_the_value_first
    (self : container) (key v : pyval) :
  CClass (class_of v) ∉ __constraints__ self ->
  __constrained_setitem__ self key v
  = Raise (TypeError "Invalid value type for Constrained class")
  /\ Vec.append self [v]
     = (if is_iterable v then Ok (self, RNone)
        else Raise (TypeError "Invalid type for argument")).
Proof.
  intros H. apply in_constraints_false in H. split.
  - unfold __constrained_setitem__. by rewrite H.
  - unfold Vec.append. rewrite guard_single. by rewrite H.
Qed.

(** [l[5] = ['x']] on the source's [l]. *)
Lemma setitem_tests_the_value_first_witness :
  (CClass (class_of (VList [VStr "x"]))
     ∉ __constraints__ (Container [CClass TStr] [VStr "a"; VStr "b"]))
  /\ __constrained_setitem__ (Container [CClass TStr] [VStr "a"; VStr "b"])
       (VInt 5) (VList [VStr "x"])
     = Raise (TypeError "Invalid value type for Constrained class")
  /\ Vec.append (Container [CClass TStr] [VStr "a"; VStr "b"])
       [VList [VStr "x"]]
     = (if is_iterable (VList [VStr "x"])
        then Ok (Container [CClass TStr] [VStr "a"; VStr "b"], RNone)
        else Raise (TypeError "Invalid type for argument")).
Proof.
  assert (CClass (class_of (VList [VStr "x"]))
          ∉ __constraints__ (Container [CClass TStr] [VStr "a"; VStr "b"]))
    as H by (apply in_constraints_false; reflexivity).
  split; [exact H|].
  exact (setitem_tests_the_value_first _ (VInt 5) (VList [VStr "x"]) H).
Defined.

(** ** Construction, once more *)

(** X14: the data and the [__constraints__] of a constructed instance,
    handed as batch and explicit [constraints] to the constructor of any
    constrained class, give back an equal instance. *)
Theorem rebuilding_gives_the_same_instance
    cls cls' (arg : batch) constraints (c : container) :
  __constrained_init__ cls arg constraints = Ok c ->
  __constrained_init__ cls' (BVal (VList (data c))) (Some (__constraints__ c))
  = Ok c.
Proof.
  intros H. apply construction_well_typed in H.
  rewrite (constrained_init_sequence cls' (VList (data c)) (data c)
             (Some (__constraints__ c))); [by destruct c | by left | exact H].
Qed.

(** [Vec(['d', 'e'])], rebuilt as an [Array]. *)
Lemma rebuilding_gives_the_same_instance_witness :
  __constrained_init__ (Some Vec.cls_constraints)
    (BVal (VList [VStr "d"; VStr "e"])) None
  = Ok (Container [CClass TStr] [VStr "d"; VStr "e"])
  /\ __constrained_init__ (Some Array.cls_constraints)
       (BVal (VList (data (Container [CClass TStr] [VStr "d"; VStr "e"]))))
       (Some (__constraints__ (Container [CClass TStr] [VStr "d"; VStr "e"])))
     = Ok (Container [CClass TStr] [VStr "d"; VStr "e"]).
Proof.
  assert (__constrained_init__ (Some Vec.cls_constraints)
            (BVal (VList [VStr "d"; VStr "e"])) None
          = Ok (Container [CClass TStr] [VStr "d"; VStr "e"])) as H
    by (vm_compute; reflexivity).
  split; [exact H|].
  exact (rebuilding_gives_the_same_instance _ (Some Array.cls_constraints)
           _ _ _ H).
Defined.

(** X15: when the class statement leaves a class-level tuple headed by a
    class (from the [constraints] keyword, as for [Array], or from the type
    argument, as for [StrArray]), an instance built without [constraints]
    carries exactly that tuple and only elements of its classes: the batch
    never widens it.  A batch with an element of another class raises the
    type error, and a list or tuple without one is accepted as it is. *)
Theorem declared_set_is_never_widened
    (orig : list centry) (keyword : option (list centry))
    (t : pytype) (rest : list centry) (arg : batch) :
  __init_subclass__ orig keyword = CClass t :: rest ->
  (forall c,
      __constrained_init__ (Some (__init_subclass__ orig keyword)) arg None
      = Ok c ->
      __constraints__ c = CClass t :: rest /\ well_typed c)
  /\ (~ Forall (fun v => CClass (class_of v) ∈ CClass t :: rest)
         (batch_items arg) ->
      __constrained_init__ (Some (__init_subclass__ orig keyword)) arg None
      = Raise (TypeError "Invalid value type for Constrained class"))
  /\ (forall l,
        arg = BVal (VList l) \/ arg = BVal (VTuple l) ->
        Forall (fun v => CClass (class_of v) ∈ CClass t :: rest) l ->
        __constrained_init__ (Some (__init_subclass__ orig keyword)) arg None
        = Ok (Container (CClass t :: rest) l)).
Proof.
  intros ->. split; [|split].
  - intros c H. split; [|by apply construction_well_typed in H].
    by apply constrained_init_ok in H as (-> & _).
  - intros Hbad. rewrite constrained_init_eq.
    destruct (iterate arg) as [[items rest']|e] eqn:Hit.
    + pose proof (iterate_items _ _ _ Hit) as ->. simpl resolved.
      destruct (forallb _ (batch_items arg)) eqn:E; [|reflexivity].
      exfalso. apply Hbad. by apply forallb_in_constraints.
    + exfalso. apply Hbad. destruct arg as [v|l]; [|discriminate].
      simpl in *. destruct (py_iter v); [discriminate | constructor].
  - intros l Harg Hl.
    destruct Harg as [-> | ->];
      by rewrite (constrained_init_sequence _ _ l None); auto.
Qed.

(** [Array([1, 'a'])], whose [constraints] keyword is [(int,)]. *)
Lemma declared_set_is_never_widened_witness :
  __init_subclass__ [] (Some [CClass TInt]) = CClass TInt :: []
  /\ (forall c,
        __constrained_init__ (Some (__init_subclass__ [] (Some [CClass TInt])))
          (BVal (VList [VInt 1; VStr "a"])) None = Ok c ->
        __constraints__ c = CClass TInt :: [] /\ well_typed c)
  /\ (~ Forall (fun v => CClass (class_of v) ∈ CClass TInt :: [])
         (batch_items (BVal (VList [VInt 1; VStr "a"]))) ->
      __constrained_init__ (Some (__init_subclass__ [] (Some [CClass TInt])))
        (BVal (VList [VInt 1; VStr "a"])) None
      = Raise (TypeError "Invalid value type for Constrained class"))
  /\ (forall l,
        BVal (VList [VInt 1; VStr "a"]) = BVal (VList l)
        \/ BVal (VList [VInt 1; VStr "a"]) = BVal (VTuple l) ->
        Forall (fun v => CClass (class_of v) ∈ CClass TInt :: []) l ->
        __constrained_init__ (Some (__init_subclass__ [] (Some [CClass TInt])))
          (BVal (VList [VInt 1; VStr "a"])) None
        = Ok (Container (CClass TInt :: []) l)).
Proof.
  split; [reflexivity|].
  exact (declared_set_is_never_widened [] (Some [CClass TInt]) TInt []
           (BVal (VList [VInt 1; VStr "a"])) eq_refl).
Defined.

Lemma userlist_init_after_iteration (b : batch) items rest :
  iterate b = Ok (items, rest) ->
  (exists d, UserList.__init__ rest = Ok d)
  \/ (exists msg, UserList.__init__ rest = Raise (AttributeError msg)).
Proof.
  destruct b as [v|l]; simpl.
  - destruct (py_iter v) as [l|] eqn:Hv; [|discriminate].
    intros [= <- <-]. unfold UserList.__init__.
    destruct v as [z|s|m e|b| |l'|l'|n l'|n it ix]; try discriminate;
      try (left; by eexists);
      match goal with
      | |- context [if ?b then _ else _] => destruct b
      end; simpl in *; eauto.
    rewrite Hv. eauto.
  - intros [= <- <-]. left. by eexists.
Qed.

(** X16: a class statement with no [constraints] keyword, or with the empty
    tuple for it, and whose first base has no type argument or a type
    variable for it, leaves the set open, and an instance built without
    [constraints] never meets the type error: a list or a tuple is accepted
    with the classes of its own elements as the set; a one-shot iterator
    gives an instance with the classes of what it yielded as the set and no
    data, the inference having exhausted it; a string raises
    [AttributeError] once it is validated. *)
Theorem open_class_infers_per_instance
    (orig : list centry) (keyword : option (list centry)) (l : list pyval)
    (s : string) :
  keyword = None \/ keyword = Some [] ->
  orig = [] \/ (exists n rest, orig = CTypeVar n :: rest) ->
  __constrained_init__ (Some (__init_subclass__ orig keyword))
    (BVal (VList l)) None
  = Ok (Container (inferred l) l)
  /\ __constrained_init__ (Some (__init_subclass__ orig keyword))
       (BVal (VTuple l)) None
     = Ok (Container (inferred l) l)
  /\ __constrained_init__ (Some (__init_subclass__ orig keyword))
       (BIter l) None
     = Ok (Container (inferred l) [])
  /\ __constrained_init__ (Some (__init_subclass__ orig keyword))
       (BVal (VStr s)) None
     = Raise (AttributeError "'str' object has no attribute 'data'")
  /\ (forall arg,
        __constrained_init__ (Some (__init_subclass__ orig keyword)) arg None
        <> Raise (TypeError "Invalid value type for Constrained class")).
Proof.
  intros Hk Ho.
  assert (__init_subclass__ orig keyword = orig) as ->
    by (destruct Hk as [-> | ->]; reflexivity).
  assert (forall items, resolved (Some orig) None items = inferred items)
    as Hres by (intros items; destruct Ho as [-> | (n & rest & ->)]; reflexivity).
  assert (forall items,
             forallb (fun v => in_constraints (class_of v) (inferred items))
               items = true) as Hok
    by (intros items; apply forallb_in_constraints, inferred_covers).
  repeat split.
  - rewrite constrained_init_eq. cbn [iterate py_iter].
    by rewrite Hres, Hok.
  - rewrite constrained_init_eq. cbn [iterate py_iter].
    by rewrite Hres, Hok.
  - rewrite constrained_init_eq. cbn [iterate py_iter].
    by rewrite Hres, Hok.
  - rewrite constrained_init_eq. cbn [iterate py_iter].
    by rewrite Hres, Hok.
  - intros arg. rewrite constrained_init_eq.
    destruct (iterate arg) as [[items rest]|e] eqn:Hit.
    + rewrite Hres, Hok.
      destruct (userlist_init_after_iteration _ _ _ Hit)
        as [[d ->]|[msg ->]]; discriminate.
    + destruct arg as [v|items]; [|discriminate]. simpl in Hit.
      destruct (py_iter v); [discriminate|]. by injection Hit as <-.
Qed.

(** [class V(Constrained[T], UserList, constraints=())], and the batches
    [[1, 'a']], [(1, 'a')], [iter([1, 'a'])] and ['ab']. *)
Lemma open_class_infers_per_instance_witness :
  (Some (@nil centry) = None \/ Some (@nil centry) = Some [])
  /\ ([CTypeVar "T"] = [] \/ exists n rest, [CTypeVar "T"] = CTypeVar n :: rest)
  /\ __constrained_init__ (Some (__init_subclass__ [CTypeVar "T"] (Some [])))
       (BVal (VList [VInt 1; VStr "a"])) None
     = Ok (Container (inferred [VInt 1; VStr "a"]) [VInt 1; VStr "a"])
  /\ __constrained_init__ (Some (__init_subclass__ [CTypeVar "T"] (Some [])))
       (BVal (VTuple [VInt 1; VStr "a"])) None
     = Ok (Container (inferred [VInt 1; VStr "a"]) [VInt 1; VStr "a"])
  /\ __constrained_init__ (Some (__init_subclass__ [CTypeVar "T"] (Some [])))
       (BIter [VInt 1; VStr "a"]) None
     = Ok (Container (inferred [VInt 1; VStr "a"]) [])
  /\ __constrained_init__ (Some (__init_subclass__ [CTypeVar "T"] (Some [])))
       (BVal (VStr "ab")) None
     = Raise (AttributeError "'str' object has no attribute 'data'")
  /\ (forall arg,
        __constrained_init__ (Some (__init_subclass__ [CTypeVar "T"] (Some [])))
          arg None
        <> Raise (TypeError "Invalid value type for Constrained class")).
Proof.
  assert (Some (@nil centry) = None \/ Some (@nil centry) = Some []) as H1
    by (right; reflexivity).
  assert ([CTypeVar "T"] = [] \/ exists n rest, [CTypeVar "T"] = CTypeVar n :: rest)
    as H2 by (right; exists "T", []; reflexivity).
  split; [exact H1|]. split; [exact H2|].
  exact (open_class_infers_per_instance [CTypeVar "T"] (Some [])
           [VInt 1; VStr "a"] "ab" H1 H2).
Defined.

(** ** Insertion at the ends *)




(** ** The subclass hook *)

Lemma subclasshook_true_iff (C : pyclass) :
  __subclasshook__ C = HTrue
  <-> __name__ C ∈ preregistered
      \/ exists B, B ∈ __mro__ C /\ "__constraints__" ∈ B.
Proof.
  unfold __subclasshook__.
  destruct (bool_decide (__name__ C ∈ preregistered)) eqn:Hn; simpl.
  - apply bool_decide_eq_true in Hn. split; auto.
  - apply bool_decide_eq_false in Hn.
    destruct (existsb _ (__mro__ C)) eqn:Hm.
    + apply existsb_exists in Hm as (B & HB & Hc).
      apply bool_decide_eq_true in Hc. apply list_elem_of_In in HB.
      split; eauto.
    + split; [discriminate|]. intros [H|(B & HB & Hc)]; [done|].
      assert (existsb (fun B : gset string =>
                         bool_decide ("__constraints__" ∈ B)) (__mro__ C)
              = true) as Ht; [|congruence].
      apply existsb_exists. exists B. split; [by apply list_elem_of_In|].
      by apply bool_decide_eq_true.
Qed.

(** X18: a class that the hook accepts for an attribute (one of the classes
    of its [__mro__] has [__constraints__] in its [__dict__]) passes the
    acceptance on to every class whose [__mro__] contains its own, that is,
    to all its subclasses, whatever they are called. *)
Theorem hook_acceptance_by_attribute_is_inherited (C D : pyclass) :
  __name__ C ∉ preregistered ->
  __subclasshook__ C = HTrue ->
  __mro__ C ⊆ __mro__ D ->
  __subclasshook__ D = HTrue.
Proof.
  intros Hname HC Hsub.
  apply subclasshook_true_iff in HC as [HC|(B & HB & Hc)]; [done|].
  apply subclasshook_true_iff. right. exists B. split; [by apply Hsub | exact Hc].
Qed.

(** A class with the attributes [__init_subclass__] sets, and a subclass
    defined with an empty body. *)
Lemma hook_acceptance_by_attribute_is_inherited_witness :
  (__name__ (PyClass "Vec" [{["__constraints__"; "__init__"; "__setitem__"]}; ∅])
     ∉ preregistered)
  /\ __subclasshook__
       (PyClass "Vec" [{["__constraints__"; "__init__"; "__setitem__"]}; ∅])
     = HTrue
  /\ __mro__ (PyClass "Vec" [{["__constraints__"; "__init__"; "__setitem__"]}; ∅])
     ⊆ __mro__ (PyClass "Sub"
                  [∅; {["__constraints__"; "__init__"; "__setitem__"]}; ∅])
  /\ __subclasshook__
       (PyClass "Sub" [∅; {["__constraints__"; "__init__"; "__setitem__"]}; ∅])
     = HTrue.
Proof.
  assert (__name__ (PyClass "Vec"
                      [{["__constraints__"; "__init__"; "__setitem__"]}; ∅])
          ∉ preregistered) as H1.
  { intros H. simpl in H. unfold preregistered in H.
    repeat (apply elem_of_cons in H as [H|H]; [discriminate H|]).
    inversion H. }
  assert (__subclasshook__
            (PyClass "Vec" [{["__constraints__"; "__init__"; "__setitem__"]}; ∅])
          = HTrue) as H2 by (vm_compute; reflexivity).
  assert (__mro__ (PyClass "Vec"
                     [{["__constraints__"; "__init__"; "__setitem__"]}; ∅])
          ⊆ __mro__ (PyClass "Sub"
                       [∅; {["__constraints__"; "__init__"; "__setitem__"]}; ∅]))
    as H3 by (intros B HB; simpl in *; by apply list_elem_of_further).
  split; [exact H1|]. split; [exact H2|]. split; [exact H3|].
  exact (hook_acceptance_by_attribute_is_inherited _ _ H1 H2 H3).
Defined.

(** X19: a class that the hook accepts for its name alone ("str", "array"
    or "IsConstrained", with no [__constraints__] anywhere along its
    [__mro__]) does not pass the acceptance on: for a subclass with another
    name and no [__constraints__] of its own the hook answers
    [NotImplemented]. *)
Theorem hook_acceptance_by_name_is_not_inherited
    (C : pyclass) (name : string) (own : gset string) :
  __name__ C ∈ preregistered ->
  (forall B, B ∈ __mro__ C -> "__constraints__" ∉ B) ->
  name ∉ preregistered ->
  "__constraints__" ∉ own ->
  __subclasshook__ C = HTrue
  /\ __subclasshook__ (PyClass name (own :: __mro__ C)) = HNotImplemented.
Proof.
  intros HC Hno Hname Hown. split.
  - apply subclasshook_true_iff. by left.
  - destruct (__subclasshook__ (PyClass name (own :: __mro__ C))) eqn:E;
      [|reflexivity].
    apply subclasshook_true_iff in E as [E|(B & HB & Hc)]; [done|].
    simpl in HB. apply elem_of_cons in HB as [->|HB]; [done|].
    by apply Hno in HB.
Qed.

(** [class MyStr(str)] *)
Lemma hook_acceptance_by_name_is_not_inherited_witness :
  __name__ (PyClass "str" [{["__len__"; "__iter__"]}; ∅]) ∈ preregistered
  /\ (forall B, B ∈ __mro__ (PyClass "str" [{["__len__"; "__iter__"]}; ∅]) ->
                "__constraints__" ∉ B)
  /\ ("MyStr" ∉ preregistered)
  /\ ("__constraints__" ∉ (∅ : gset string))
  /\ __subclasshook__ (PyClass "str" [{["__len__"; "__iter__"]}; ∅]) = HTrue
  /\ __subclasshook__
       (PyClass "MyStr"
          (∅ :: __mro__ (PyClass "str" [{["__len__"; "__iter__"]}; ∅])))
     = HNotImplemented.
Proof.
  assert (__name__ (PyClass "str" [{["__len__"; "__iter__"]}; ∅])
          ∈ preregistered) as H1 by (by left).
  assert (forall B,
             B ∈ __mro__ (PyClass "str" [{["__len__"; "__iter__"]}; ∅]) ->
             "__constraints__" ∉ B) as H2.
  { intros B HB. simpl in HB.
    repeat (apply elem_of_cons in HB as [->|HB];
            [apply (bool_decide_eq_false_1 _); vm_compute; reflexivity|]).
    inversion HB. }
  assert ("MyStr" ∉ preregistered) as H3.
  { intros H. unfold preregistered in H.
    repeat (apply elem_of_cons in H as [H|H]; [discriminate H|]).
    inversion H. }
  assert ("__constraints__" ∉ (∅ : gset string)) as H4
    by apply not_elem_of_empty.
  split; [exact H1|]. split; [exact H2|]. split; [exact H3|].
  split; [exact H4|].
  exact (hook_acceptance_by_name_is_not_inherited _ "MyStr" ∅ H1 H2 H3 H4).
Defined.

(** ** Containers with an empty set *)

Lemma empty_set_guard_never_delegates (m : method) self args todo c r :
  __constraints__ self = [] ->
  constrain_loop m self args todo = Ok (c, r) ->
  c = self /\ r = RNone.
Proof.
  intros Hcs. induction todo as [|a todo IH]; simpl.
  - by intros [= <- <-].
  - rewrite Hcs. simpl.
    destruct (py_iter a); [|discriminate].
    rewrite all_classes_true. simpl. exact IH.
Qed.

Lemma empty_set_step self cl c r :
  __constraints__ self = [] ->
  step self cl = Ok (c, r) ->
  c = self.
Proof.
  intros Hcs. destruct cl; simpl;
    try (intros H; by apply (empty_set_guard_never_delegates _ _ _ _ _ _ Hcs)
                         in H as [? _]).
  unfold Vec.__setitem__, __constrained_setitem__. rewrite Hcs. discriminate.
Qed.

(** X20: a container whose [__constraints__] is the empty tuple (as built
    from an empty batch with nothing declared, or with [constraints=()])
    never changes: after any sequence of calls of the six operations it is
    exactly what it was. *)
Theorem empty_set_container_is_frozen (self : container) (calls : list call) :
  __constraints__ self = [] ->
  run self calls = self.
Proof.
  intros Hcs. induction calls as [|cl calls IH]; [reflexivity|].
  simpl. destruct (step self cl) as [[c r]|e] eqn:E; [|exact IH].
  apply (empty_set_step self cl c r Hcs) in E. by subst c.
Qed.

(** [Vec([])], then an append, an extend, an insert and a repetition. *)
Lemma empty_set_container_is_frozen_witness :
  __constraints__ (Container [] []) = []
  /\ run (Container [] [])
       [Append (VInt 1); Extend (VList [VInt 1]); Insert (VInt 0) (VStr "a");
        IMul (VInt 3); SetItem (VInt 0) (VInt 1); IAdd (VStr "ab")]
     = Container [] [].
Proof.
  split; [reflexivity|].
  exact (empty_set_container_is_frozen (Container [] []) _ eq_refl).
Defined.
